(** * Splunk backends of sigmac: a shallow embedding and its properties

    Source: [tools/sigma/backends/splunk.py], classes [SplunkBackend]
    (one SPL query text per rule) and [SplunkXMLBackend] (a dashboard
    document accumulated over all rules).

    Python values are embedded as an inductive type, exceptions as an
    error result, instance attributes that are assigned to as explicit
    state.  Methods inherited from [.base] and [.mixins] are passed to
    the methods of this file as arguments; a rendering of them that follows
    the design document is given separately in [SingleTextQueryBackend]. *)

From Stdlib Require Import Ascii String.
From stdpp Require Import gmap strings list pretty.

(** ** Python values, exceptions and the string operations the backends use *)

Module Py.

(** The part of the Python value universe that reaches the backends:
    YAML scalars and lists; mappings are left out.  A [str] is a
    sequence of code points below 256, one per [ascii]. *)
#[warnings="-register-all"] Inductive value : Type :=
| VNone
| VBool (b : bool)
| VInt (z : Z)
| VStr (s : string)
| VList (l : list value).

(** [type(v)] *)
Inductive pytype : Type := TNoneType | TBool | TInt | TStr | TList.

Definition type_of (v : value) : pytype :=
  match v with
  | VNone => TNoneType
  | VBool _ => TBool
  | VInt _ => TInt
  | VStr _ => TStr
  | VList _ => TList
  end.

#[global] Instance pytype_eq_dec : EqDecision pytype.
Proof. solve_decision. Defined.

#[global] Instance pytype_countable : Countable pytype.
Proof.
  refine (inj_countable'
            (λ t, match t with
                  | TNoneType => 0 | TBool => 1 | TInt => 2
                  | TStr => 3 | TList => 4
                  end)
            (λ n, match n with
                  | 0 => TNoneType | 1 => TBool | 2 => TInt
                  | 3 => TStr | _ => TList
                  end) _).
  by intros [].
Defined.

(** The exceptions raised on the paths modelled here. *)
Inductive exception : Type :=
| TypeError (msg : string)
| ValueError (msg : string)
| KeyError (key : string)
| NotImplementedError (msg : string)
| UnboundLocalError (var : string).

(** The outcome of a call: a returned value or a raised exception. *)
Inductive result (A : Type) : Type :=
| Ok (a : A)
| Raise (e : exception).
Arguments Ok {A} a.
Arguments Raise {A} e.

#[global] Instance result_ret : MRet result := λ A a, Ok a.
#[global] Instance result_bind : MBind result :=
  λ A B f r, match r with Ok a => f a | Raise e => Raise e end.

(** Characters that cannot be written inside a literal. *)
Definition dquote : ascii := ascii_of_nat 34.
Definition squote : ascii := ascii_of_nat 39.
Definition backslash : ascii := ascii_of_nat 92.
Definition DQ : string := String dquote "".

(** [sep.join(parts)] *)
Definition join (sep : string) (parts : list string) : string :=
  String.concat sep parts.

(** [s.replace(old, new)] for a one-character [old]. *)
Fixpoint replace (old : ascii) (new : string) (s : string) : string :=
  match s with
  | "" => ""
  | String c s' =>
      if decide (c = old) then new +:+ replace old new s'
      else String c (replace old new s')
  end.

(** [tmpl % args] where every conversion of [tmpl] is [%s] and the
    arguments are already strings. *)
Fixpoint format (tmpl : string) (args : list string) : result string :=
  match tmpl with
  | "" =>
      match args with
      | [] => Ok ""
      | _ :: _ =>
          Raise (TypeError
                   "not all arguments converted during string formatting")
      end
  | String "%" (String "s" rest) =>
      match args with
      | a :: args' => r ← format rest args'; Ok (a +:+ r)
      | [] => Raise (TypeError "not enough arguments for format string")
      end
  | String "%" _ => Raise (ValueError "unsupported format character")
  | String c rest => r ← format rest args; Ok (String c r)
  end.

(** [repr] of a [str]: single quotes unless the text has a single quote
    and no double quote; the quote and the backslash are escaped, tab,
    newline and carriage return are written symbolically, other
    code points that are not printable as [\xhh]. *)
Definition hexdigit (n : N) : ascii :=
  match n with
  | 0 => "0" | 1 => "1" | 2 => "2" | 3 => "3" | 4 => "4" | 5 => "5"
  | 6 => "6" | 7 => "7" | 8 => "8" | 9 => "9" | 10 => "a" | 11 => "b"
  | 12 => "c" | 13 => "d" | 14 => "e" | _ => "f"
  end%N%char.

Definition printable (c : ascii) : bool :=
  let n := N_of_ascii c in
  ((32 <=? n) && (n <? 127) || (161 <=? n) && negb (n =? 173))%N.

Definition repr_char (quote c : ascii) : string :=
  let n := N_of_ascii c in
  if bool_decide (c = quote) || bool_decide (c = backslash)
  then String backslash (String c "")
  else if (n =? 9)%N then "\t"
  else if (n =? 10)%N then "\n"
  else if (n =? 13)%N then "\r"
  else if printable c then String c ""
  else "\x" +:+ String (hexdigit (n / 16)) (String (hexdigit (n mod 16)) "").

Fixpoint contains (c : ascii) (s : string) : bool :=
  match s with
  | "" => false
  | String c' s' => bool_decide (c' = c) || contains c s'
  end.

Fixpoint repr_chars (quote : ascii) (s : string) : string :=
  match s with
  | "" => ""
  | String c s' => repr_char quote c +:+ repr_chars quote s'
  end.

Definition repr_str (s : string) : string :=
  let quote :=
    if contains squote s && negb (contains dquote s) then dquote
    else squote in
  String quote (repr_chars quote s +:+ String quote "").

(** [repr(v)] and [str(v)] *)
Fixpoint repr (v : value) : string :=
  match v with
  | VNone => "None"
  | VBool true => "True"
  | VBool false => "False"
  | VInt z => pretty z
  | VStr s => repr_str s
  | VList l => "[" +:+ join ", " (map repr l) +:+ "]"
  end.

Definition str (v : value) : string :=
  match v with
  | VStr s => s
  | _ => repr v
  end.

(** [iter(v)], consumed to the end: what a [for] loop over [v] visits. *)
Fixpoint chars (s : string) : list value :=
  match s with
  | "" => []
  | String c s' => VStr (String c "") :: chars s'
  end.

Definition iterate (v : value) : result (list value) :=
  match v with
  | VList l => Ok l
  | VStr s => Ok (chars s)
  | VNone => Raise (TypeError "'NoneType' object is not iterable")
  | VBool _ => Raise (TypeError "'bool' object is not iterable")
  | VInt _ => Raise (TypeError "'int' object is not iterable")
  end.

(** [x or ""] for an optional string attribute. *)
Definition or_empty (x : option string) : string := default "" x.

(** A [for] loop whose body may [return]: the body either passes to the
    next element or returns from the enclosing function.  A function that
    runs off its end returns [None]. *)
Inductive flow (A : Type) : Type :=
| Next
| Return (a : A).
Arguments Next {A}.
Arguments Return {A} a.

Fixpoint for_in {X A : Type} (xs : list X) (body : X → result (flow A))
  : result (option A) :=
  match xs with
  | [] => Ok None
  | x :: xs' =>
      step ← body x;
      match step with
      | Return a => Ok (Some a)
      | Next => for_in xs' body
      end
  end.

(** Reading a local variable, which is [None] here while no assignment
    to it has run. *)
Definition read {A : Type} (name : string) (x : option A) : result A :=
  match x with
  | Some v => Ok v
  | None => Raise (UnboundLocalError name)
  end.

(** [d[key]] *)
Definition getitem (d : gmap string value) (key : string) : result value :=
  match d !! key with
  | Some v => Ok v
  | None => Raise (KeyError key)
  end.

(** [v is not None] *)
Definition is_not_None (v : value) : bool :=
  match v with
  | VNone => false
  | _ => true
  end.

End Py.
Import Py.


(** ** Regular expressions

    The fragment of Python's [re] syntax in which [reEscape] is written:
    literal characters, alternation, concatenation, a negative lookbehind
    for one character and a negative lookahead. *)

Module Re.

Inductive regex : Type :=
| Chr (c : ascii)                         (* c *)
| Class (cs : list ascii)                 (* [cs] *)
| Alt (r1 r2 : regex)                     (* r1|r2 *)
| Seq (r1 r2 : regex)                     (* r1r2 *)
| NegLookbehind (c : ascii)               (* (?<!c) *)
| NegLookahead (r : regex).               (* (?!r) *)

(** [matches r before s]: the ways [r] matches at the start of [s],
    each as the text consumed and the text left, in the order the
    backtracking matcher tries them.  [before] is the text to the left of
    the position, nearest character first. *)
Fixpoint matches (r : regex) (before : list ascii) (s : list ascii)
  : list (list ascii * list ascii) :=
  match r with
  | Chr c =>
      match s with
      | x :: s' => if decide (x = c) then [([x], s')] else []
      | [] => []
      end
  | Class cs =>
      match s with
      | x :: s' => if decide (x ∈ cs) then [([x], s')] else []
      | [] => []
      end
  | Alt r1 r2 => matches r1 before s ++ matches r2 before s
  | Seq r1 r2 =>
      '(m1, s1) ← matches r1 before s;
      '(m2, s2) ← matches r2 (reverse m1 ++ before) s1;
      [(m1 ++ m2, s2)]
  | NegLookbehind c =>
      match before with
      | x :: _ => if decide (x = c) then [] else [([], s)]
      | [] => [([], s)]
      end
  | NegLookahead r' =>
      match matches r' before s with
      | [] => [([], s)]
      | _ :: _ => []
      end
  end.

(** The scan of [r.sub(repl, s)], for a pattern that consumes at least
    one character when it matches: at each position outside a previous
    match the first match, if any, is replaced by [repl] of its text.
    [skip] counts the characters of the current match still to pass. *)
Fixpoint sub_scan (r : regex) (repl : list ascii → list ascii)
         (skip : nat) (before : list ascii) (s : list ascii)
  : list ascii :=
  match s with
  | [] => []
  | c :: s' =>
      match skip with
      | S k => sub_scan r repl k (c :: before) s'
      | O =>
          match matches r before s with
          | ((_ :: _) as m, _) :: _ =>
              repl m ++ sub_scan r repl (length m - 1) (c :: before) s'
          | _ => c :: sub_scan r repl 0 (c :: before) s'
          end
      end
  end.

Definition sub (r : regex) (repl : list ascii → list ascii) (s : string)
  : string :=
  string_of_list_ascii (sub_scan r repl 0 [] (list_ascii_of_string s)).

End Re.

(** ** The parsed rule

    The objects the rule parser hands to a backend. *)

(** Modelled from the spec: the condition tree of the absent parser module,
    a tagged union of [And], [Or], [Not], [Comparison] and [List] nodes.  The
    value of a comparison is a scalar or the existence sentinel in one of its
    two polarities. *)
Inductive operand : Type :=
| Scalar (v : value)
| FieldPresent
| FieldAbsent.

#[warnings="-register-all"] Inductive ConditionNode : Type :=
| And (children : list ConditionNode)
| Or (children : list ConditionNode)
| Not (child : ConditionNode)
| Comparison (field : string) (v : operand)
| ListNode (field : string) (values : list value).

(** Modelled from the spec: the aggregation functions of the absent parser
    module ([SigmaAggregationParser.AGGFUNC_*]). *)
Inductive aggfunc_t : Type :=
| AGGFUNC_COUNT
| AGGFUNC_SUM
| AGGFUNC_MIN
| AGGFUNC_MAX
| AGGFUNC_AVG
| AGGFUNC_DISTINCT_COUNT
| AGGFUNC_NEAR.

#[global] Instance aggfunc_eq_dec : EqDecision aggfunc_t.
Proof. solve_decision. Defined.

(** The attributes of an aggregation object that [generateAggregation]
    reads: the function as parsed ([aggfunc]) and as written
    ([aggfunc_notrans]), the optional fields, the comparison operator and
    the threshold text. *)
Record SigmaAggregation : Type := mkAgg {
  aggfunc : aggfunc_t;
  aggfunc_notrans : string;
  aggfield : option string;
  groupfield : option string;
  cond_op : string;
  condition : string
}.

(** One top-level condition of a rule, an element of [condparsed]. *)
Record ConditionParsed : Type := mkParsed {
  parsedSearch : ConditionNode;
  parsedAgg : option SigmaAggregation
}.

(** The parsed rule: the YAML document as a dictionary, the top-level
    conditions, and the field mapping of the configuration,
    [config.get_fieldmapping(f).resolve_fieldname(f)]. *)
Record SigmaParser : Type := mkRule {
  parsedyaml : gmap string value;
  condparsed : list ConditionParsed;
  resolve_fieldname : value → result value
}.

(** ** The template table of a backend

    The class attributes of a text query backend. *)
Record TemplateSet : Type := mkTemplates {
  reEscape : option Re.regex;
  reClear : option Re.regex;
  andToken : string;
  orToken : string;
  notToken : string;
  subExpression : string;
  listExpression : string;
  listSeparator : string;
  valueExpression : string;
  nullExpression : string;
  notNullExpression : string;
  mapExpression : string;
  mapListsSpecialHandling : bool;
  mapListValueExpression : string
}.

(** ** The inherited tree walker *)

Module SingleTextQueryBackend.

Section walker.
Context (self : TemplateSet).
(** the two methods a backend overrides *)
Context (generateMapItemListNode : string → list value → result string).
Context (generateAggregation :
           option SigmaAggregation → result string * option SigmaAggregation).

(** Modelled from the spec: the value escaper of the absent mixin, one
    pass over the value that puts a backslash before each match of
    [reEscape] and then removes each match of [reClear]. *)
Definition cleanValue (val : string) : string :=
  let val :=
    match reEscape self with
    | Some r => Re.sub r (λ m, backslash :: m) val
    | None => val
    end in
  match reClear self with
  | Some r => Re.sub r (λ _, []) val
  | None => val
  end.

(** Modelled from the spec: the value rendering of the absent base
    class.  A number is written as it is (section 8 renders the value
    1 of a list as [x=1]); the text of any other value is escaped and
    wrapped in the value-quoting template (section 4.1). *)
Definition generateValueNode (node : value) : result string :=
  match node with
  | VInt _ => Ok (str node)
  | _ => format (valueExpression self) [cleanValue (str node)]
  end.

(** Modelled from the spec: the grouping of the absent base class. *)
Definition group (text : string) : result string :=
  format (subExpression self) [text].

(** Modelled from the spec: the tree walker of the absent base class,
    dispatched on the kind of node as section 4.1 lays it out. *)
Fixpoint generateNode (node : ConditionNode) : result string :=
  match node with
  | And children =>
      parts ← mapM (λ c, text ← generateNode c;
                         match c with
                         | Or _ | Not _ => group text
                         | _ => Ok text
                         end) children;
      Ok (join (andToken self) parts)
  | Or children =>
      parts ← mapM (λ c, text ← generateNode c;
                         match c with
                         | And _ | Not _ => group text
                         | _ => Ok text
                         end) children;
      Ok (join (orToken self) parts)
  | Not child =>
      text ← generateNode child;
      text ← match child with
             | And _ | Or _ => group text
             | _ => Ok text
             end;
      Ok (notToken self +:+ text)
  | Comparison field FieldPresent => format (notNullExpression self) [field]
  | Comparison field FieldAbsent => format (nullExpression self) [field]
  | Comparison field (Scalar v) =>
      text ← generateValueNode v;
      format (mapExpression self) [field; text]
  | ListNode field values =>
      if mapListsSpecialHandling self
      then generateMapItemListNode field values
      else parts ← mapM generateValueNode values;
           format (listExpression self) [join (listSeparator self) parts]
  end.

(** Modelled from the spec: the query of one top-level condition, the
    rendered tree followed by the aggregation clause. *)
Definition generateQuery (parsed : ConditionParsed)
  : result (option string) :=
  text ← generateNode (parsedSearch parsed);
  clause ← (generateAggregation (parsedAgg parsed)).1;
  Ok (Some (text +:+ clause)).

End walker.

End SingleTextQueryBackend.

(** ** [class SplunkBackend(SingleTextQueryBackend)] *)

Module SplunkBackend.

(** The pattern compiled into [reEscape], an alternation in one group:
    a double quote, or a backslash under the lookbehind [(?<!\\)] and the
    lookahead [(?![*?\\])], that is a backslash that no backslash
    precedes and that none of [*], [?] and backslash follows. *)
Definition reEscape_pattern : Re.regex :=
  Re.Alt (Re.Chr dquote)
         (Re.Seq (Re.NegLookbehind backslash)
            (Re.Seq (Re.Chr backslash)
               (Re.NegLookahead (Re.Class ["*"; "?"; backslash]%char)))).

(** The class attributes. *)
Definition attributes : TemplateSet := {|
  reEscape := Some reEscape_pattern;
  reClear := None;
  andToken := " ";
  orToken := " OR ";
  notToken := "NOT ";
  subExpression := "(%s)";
  listExpression := "(%s)";
  listSeparator := " ";
  valueExpression := DQ +:+ "%s" +:+ DQ;
  nullExpression := "NOT %s=" +:+ DQ +:+ "*" +:+ DQ;
  notNullExpression := "%s=" +:+ DQ +:+ "*" +:+ DQ;
  mapExpression := "%s=%s";
  mapListsSpecialHandling := true;
  mapListValueExpression := "%s IN %s"
|}.

Definition set_aggfunc_notrans (name : string) (agg : SigmaAggregation)
  : SigmaAggregation :=
  {| aggfunc := aggfunc agg;
     aggfunc_notrans := name;
     aggfield := aggfield agg;
     groupfield := groupfield agg;
     cond_op := cond_op agg;
     condition := condition agg |}.

Section methods.
(** inherited methods *)
Context (generateValueNode : value → result string).
Context (generateQuery : ConditionParsed → result (option string)).
Context (generateBefore : ConditionParsed → result (option string)).
Context (generateAfter : ConditionParsed → result (option string)).

Definition generateMapItemListNode (key : string) (value : list value)
  : result string :=
  if bool_decide (list_to_set (type_of <$> value)
                    ⊆ ({[TStr; TInt]} : gset pytype))
  then
    parts ← mapM (λ item, text ← generateValueNode item;
                          format "%s=%s" [key; text]) value;
    Ok ("(" +:+ join " OR " parts +:+ ")")
  else Raise (TypeError "List values must be strings or numbers").

(** The result is paired with the aggregation object as the call
    leaves it. *)
Definition generateAggregation (agg : option SigmaAggregation)
  : result string * option SigmaAggregation :=
  match agg with
  | None => (Ok "", None)
  | Some a =>
      if decide (aggfunc a = AGGFUNC_NEAR)
      then (Raise (NotImplementedError
                     "The 'near' aggregation operator is not yet implemented for this backend"),
            Some a)
      else
        match groupfield a with
        | None =>
            (format " | stats %s(%s) as val | search val %s %s"
               [aggfunc_notrans a; or_empty (aggfield a);
                cond_op a; condition a],
             Some a)
        | Some _ =>
            let a := if decide (aggfunc_notrans a = "count")
                     then set_aggfunc_notrans "dc" a
                     else a in
            (format " | stats %s(%s) as val by %s | search val %s %s"
               [aggfunc_notrans a; or_empty (aggfield a);
                or_empty (groupfield a); cond_op a; condition a],
             Some a)
        end
  end.

(** The loop over the requested fields, with the locals [columns] and
    [mapped] it assigns to. *)
Fixpoint resolve_fields (sigmaparser : SigmaParser) (fs : list value)
         (columns : list value) (mapped : option value)
  : result (list value * option value) :=
  match fs with
  | [] => Ok (columns, mapped)
  | field :: fs' =>
      m ← resolve_fieldname sigmaparser field;
      match m with
      | VStr _ => resolve_fields sigmaparser fs' (columns ++ [m]) (Some m)
      | VList l => resolve_fields sigmaparser fs' (columns ++ l) (Some m)
      | _ => Raise (TypeError "Field mapping must return string or list")
      end
  end.

(** The [try] statement that opens [generate]; the result is the
    locals [mapped] and [fields] as it leaves them. *)
Definition projection (sigmaparser : SigmaParser)
  : result (option value * option string) :=
  let columns := [] in
  let body :=
    requested ← getitem (parsedyaml sigmaparser) "fields";
    fs ← iterate requested;
    '(columns, mapped) ← resolve_fields sigmaparser fs columns None;
    let fields := join "," (str <$> columns) in
    let fields := " | table " +:+ fields in
    Ok (mapped, Some fields) in
  match body with
  | Raise (KeyError _) => Ok (Some VNone, None)
  | outcome => outcome
  end.

(** The composition of one condition's text. *)
Definition compose (mapped : option value) (fields : option string)
           (parsed : ConditionParsed) : result string :=
  query ← generateQuery parsed;
  before ← generateBefore parsed;
  after ← generateAfter parsed;
  let result := "" in
  let result := match before with Some b => b | None => result end in
  let result := match query with Some q => result +:+ q | None => result end in
  let result := match after with Some a => result +:+ a | None => result end in
  m ← read "mapped" mapped;
  if is_not_None m
  then f ← read "fields" fields; Ok (result +:+ f)
  else Ok result.

Definition generate (sigmaparser : SigmaParser) : result (option string) :=
  '(mapped, fields) ← projection sigmaparser;
  for_in (condparsed sigmaparser)
         (λ parsed, result ← compose mapped fields parsed;
                    Ok (Return result)).

End methods.

End SplunkBackend.

(** ** [class SplunkXMLBackend(SingleTextQueryBackend, MultiRuleOutputMixin)] *)

Module SplunkXMLBackend.

Definition panel_pre : string := "<row><panel><title>".
Definition panel_inf : string := "</title><table><search><query>".
Definition panel_suf : string :=
  "</query><earliest>$field1.earliest$</earliest><latest>$field1.latest$</latest><sampleRatio>1</sampleRatio>"
  +:+ "</search><option name=" +:+ DQ +:+ "count" +:+ DQ +:+ ">20</option><option name="
  +:+ DQ +:+ "dataOverlayMode" +:+ DQ +:+ ">none</option><option name=" +:+ DQ
  +:+ "drilldown" +:+ DQ +:+ ">row</option><option name=" +:+ DQ +:+ "percentagesRow"
  +:+ DQ +:+ ">false</option><option name=" +:+ DQ +:+ "refresh.display" +:+ DQ +:+ ">"
  +:+ "progressbar</option><option name=" +:+ DQ +:+ "rowNumbers" +:+ DQ
  +:+ ">false</option><option name=" +:+ DQ +:+ "totalsRow" +:+ DQ +:+ ">false</option>"
  +:+ "<option name=" +:+ DQ +:+ "wrap" +:+ DQ +:+ ">true</option></table></panel></row>".
Definition dash_pre : string :=
  "<form><label>MyDashboard</label><fieldset submitButton=" +:+ DQ +:+ "false" +:+ DQ
  +:+ "><input type=" +:+ DQ +:+ "time" +:+ DQ +:+ " token=" +:+ DQ +:+ "field1" +:+ DQ +:+ ">"
  +:+ "<label></label><default><earliest>-24h@h</earliest><latest>now</latest></default></input></fieldset>".
Definition dash_suf : string := "</form>".

(** The same pattern text as in [SplunkBackend], compiled again. *)
Definition reEscape_pattern : Re.regex :=
  Re.Alt (Re.Chr dquote)
         (Re.Seq (Re.NegLookbehind backslash)
            (Re.Seq (Re.Chr backslash)
               (Re.NegLookahead (Re.Class ["*"; "?"; backslash]%char)))).

Definition attributes : TemplateSet := {|
  reEscape := Some reEscape_pattern;
  reClear := reClear SplunkBackend.attributes;
  andToken := andToken SplunkBackend.attributes;
  orToken := orToken SplunkBackend.attributes;
  notToken := notToken SplunkBackend.attributes;
  subExpression := subExpression SplunkBackend.attributes;
  listExpression := listExpression SplunkBackend.attributes;
  listSeparator := listSeparator SplunkBackend.attributes;
  valueExpression := valueExpression SplunkBackend.attributes;
  nullExpression := nullExpression SplunkBackend.attributes;
  notNullExpression := notNullExpression SplunkBackend.attributes;
  mapExpression := mapExpression SplunkBackend.attributes;
  mapListsSpecialHandling := mapListsSpecialHandling SplunkBackend.attributes;
  mapListValueExpression := mapListValueExpression SplunkBackend.attributes
|}.

(** The instance: the attribute [queries], which starts as the class
    attribute [dash_pre], and the state [S] of the rule name mixin. *)
Record instance (S : Type) : Type := mkInstance {
  queries : string;
  mixin : S
}.
Arguments mkInstance {S} queries mixin.
Arguments queries {S} i.
Arguments mixin {S} i.

Definition new {S : Type} (names : S) : instance S :=
  {| queries := dash_pre; mixin := names |}.

(** A method that may assign to the instance and may raise. *)
Definition method (S A : Type) : Type := instance S → result A * instance S.

#[global] Instance method_ret {S} : MRet (method S) := λ A a self, (Ok a, self).
#[global] Instance method_bind {S} : MBind (method S) :=
  λ A B f m self,
    match m self with
    | (Ok a, self') => f a self'
    | (Raise e, self') => (Raise e, self')
    end.

Section methods.
Context {S : Type}.
(** inherited methods *)
Context (generateValueNode : value → result string).
Context (generateQuery : ConditionParsed → result (option string)).
Context (getRuleName : SigmaParser → S → result string * S).

(** [self.queries += text] *)
Definition queries_add (text : string) : method S () :=
  λ self, (Ok (), {| queries := queries self +:+ text; mixin := mixin self |}).

(** a call that does not touch the instance *)
Definition call {A : Type} (r : result A) : method S A := λ self, (r, self).

(** [self.getRuleName(sigmaparser)] *)
Definition call_getRuleName (sigmaparser : SigmaParser) : method S string :=
  λ self,
    let '(r, names) := getRuleName sigmaparser (mixin self) in
    (r, {| queries := queries self; mixin := names |}).

Definition generateMapItemListNode (key : string) (value : list value)
  : result string :=
  parts ← mapM (λ item, text ← generateValueNode item;
                        format "%s=%s" [key; text]) value;
  Ok ("(" +:+ join " OR " parts +:+ ")").

Definition generateAggregation (agg : option SigmaAggregation)
  : result string * option SigmaAggregation :=
  match agg with
  | None => (Ok "", None)
  | Some a =>
      if decide (aggfunc a = AGGFUNC_NEAR)
      then (Ok "", Some a)
      else
        match groupfield a with
        | None =>
            (format " | stats %s(%s) as val | search val %s %s"
               [aggfunc_notrans a; or_empty (aggfield a);
                cond_op a; condition a],
             Some a)
        | Some _ =>
            (format " | stats %s(%s) as val by %s | search val %s %s"
               [aggfunc_notrans a; or_empty (aggfield a);
                or_empty (groupfield a); cond_op a; condition a],
             Some a)
        end
  end.

Fixpoint generate_loop (sigmaparser : SigmaParser)
         (conditions : list ConditionParsed) : method S () :=
  match conditions with
  | [] => mret ()
  | parsed :: conditions' =>
      query ← call (generateQuery parsed);
      match query with
      | Some query =>
          queries_add panel_pre;;
          name ← call_getRuleName sigmaparser;
          queries_add name;;
          queries_add panel_inf;;
          let query := replace "<" "&lt;" query in
          let query := replace ">" "&gt;" query in
          queries_add query;;
          queries_add panel_suf
      | None => mret ()
      end;;
      generate_loop sigmaparser conditions'
  end.

Definition generate (sigmaparser : SigmaParser) : method S () :=
  generate_loop sigmaparser (condparsed sigmaparser).

Definition finalize : method S string :=
  queries_add dash_suf;;
  ((λ self, (Ok (queries self), self)) : method S string).

End methods.

End SplunkXMLBackend.

(** * The backends as they run, and the vocabulary of the properties *)

(** ** The two classes with their inherited methods bound

    The tree walker is the rendering of the inherited one given above; the
    rule comment of [generateBefore] is switched off and there is no text
    after a query. *)

Definition no_text (parsed : ConditionParsed) : result (option string) :=
  Ok None.

Module Splunk.

Definition generateValueNode : value → result string :=
  SingleTextQueryBackend.generateValueNode SplunkBackend.attributes.

Definition generateMapItemListNode : string → list value → result string :=
  SplunkBackend.generateMapItemListNode generateValueNode.

Definition generateNode : ConditionNode → result string :=
  SingleTextQueryBackend.generateNode
    SplunkBackend.attributes generateMapItemListNode.

Definition generateQuery : ConditionParsed → result (option string) :=
  SingleTextQueryBackend.generateQuery
    SplunkBackend.attributes generateMapItemListNode
    SplunkBackend.generateAggregation.

Definition generate : SigmaParser → result (option string) :=
  SplunkBackend.generate generateQuery no_text no_text.

End Splunk.

Module SplunkXML.

Definition generateValueNode : value → result string :=
  SingleTextQueryBackend.generateValueNode SplunkXMLBackend.attributes.

Definition generateMapItemListNode : string → list value → result string :=
  SplunkXMLBackend.generateMapItemListNode generateValueNode.

Definition generateNode : ConditionNode → result string :=
  SingleTextQueryBackend.generateNode
    SplunkXMLBackend.attributes generateMapItemListNode.

Definition generateQuery : ConditionParsed → result (option string) :=
  SingleTextQueryBackend.generateQuery
    SplunkXMLBackend.attributes generateMapItemListNode
    SplunkXMLBackend.generateAggregation.

(** A rule name method that keeps no state: the title of the rule. *)
Definition getRuleName (sigmaparser : SigmaParser) (names : ())
  : result string * () :=
  (title ← getitem (parsedyaml sigmaparser) "title"; Ok (str title), names).

Definition generate : SigmaParser → SplunkXMLBackend.method () () :=
  SplunkXMLBackend.generate generateQuery getRuleName.

End SplunkXML.

(** ** Aggregation clauses *)

(** The clause around a function name: a single statistic, or one per
    value of the groupfield, filtered against the threshold. *)
Definition clause (function : string) (agg : SigmaAggregation) : string :=
  match groupfield agg with
  | None =>
      " | stats " +:+ function +:+ "(" +:+ or_empty (aggfield agg)
      +:+ ") as val | search val " +:+ cond_op agg +:+ " " +:+ condition agg
  | Some g =>
      " | stats " +:+ function +:+ "(" +:+ or_empty (aggfield agg)
      +:+ ") as val by " +:+ g +:+ " | search val " +:+ cond_op agg
      +:+ " " +:+ condition agg
  end.

Definition grouped_count : SigmaAggregation :=
  mkAgg AGGFUNC_COUNT "count" None (Some "host") ">" "5".

Definition scalar_count : SigmaAggregation :=
  mkAgg AGGFUNC_COUNT "count" None None ">" "5".

(** The aggregation object as [SplunkBackend] leaves it: the function name
    as written overwritten with [dc] if the function is not [near], there
    is a groupfield and the name is [count]; the object as it was
    otherwise. *)
Definition after_rendering (a : SigmaAggregation) : SigmaAggregation :=
  if bool_decide (aggfunc a ≠ AGGFUNC_NEAR
                  ∧ is_Some (groupfield a)
                  ∧ aggfunc_notrans a = "count")
  then mkAgg (aggfunc a) "dc" (aggfield a) (groupfield a) (cond_op a)
             (condition a)
  else a.

(** ** Field projection *)

(** The results the field mapping may give, and the columns each stands
    for. *)
Definition str_or_list (v : value) : bool :=
  match v with
  | VStr _ | VList _ => true
  | _ => false
  end.

Definition columns_of (v : value) : list value :=
  match v with
  | VStr _ => [v]
  | VList l => l
  | _ => []
  end.

(** The mapping with [a] mapped to one column and [b] fanned out to two. *)
Definition fan_out (field : value) : result value :=
  match field with
  | VStr "a" => Ok (VStr "A")
  | VStr "b" => Ok (VList [VStr "B1"; VStr "B2"])
  | _ => Ok field
  end.

(** A mapping that answers [a] with a column and [b] with a number, and
    raises [KeyError] on every other field. *)
Definition number_then_KeyError (field : value) : result value :=
  match field with
  | VStr "a" => Ok (VStr "A")
  | VStr "b" => Ok (VInt 7)
  | _ => Raise (KeyError (str field))
  end.

(** ** Rules *)

(** A rule with the field list [a, b, c] under that mapping. *)
Definition bad_answer_rule : SigmaParser :=
  mkRule {[ "fields" := VList [VStr "a"; VStr "b"; VStr "c"] ]}
         [mkParsed (Comparison "a" (Scalar (VInt 1))) None]
         number_then_KeyError.

Definition equals (field : string) (z : Z) : ConditionParsed :=
  mkParsed (Comparison field (Scalar (VInt z))) None.

(** A rule with two top-level conditions and no field list. *)
Definition two_conditions : SigmaParser :=
  mkRule ∅ [equals "a" 1; equals "b" 2] fan_out.

(** A rule with one condition and the field list [a, b]. *)
Definition with_fields : SigmaParser :=
  mkRule {[ "fields" := VList [VStr "a"; VStr "b"] ]} [equals "a" 1] fan_out.

(** A rule with one condition and an empty field list. *)
Definition empty_fields : SigmaParser :=
  mkRule {[ "fields" := VList [] ]} [equals "a" 1] fan_out.

(** A rule with one condition and no field list. *)
Definition no_fields : SigmaParser :=
  mkRule ∅ [equals "a" 1] fan_out.

(** What [generate] would return if the text of the last top-level
    condition were the one returned. *)
Definition text_of_last
           (generateQuery generateBefore generateAfter
            : ConditionParsed → result (option string))
           (sigmaparser : SigmaParser) : result (option string) :=
  '(mapped, fields) ← SplunkBackend.projection sigmaparser;
  match last (condparsed sigmaparser) with
  | Some parsed =>
      text ← SplunkBackend.compose generateQuery generateBefore generateAfter
                                   mapped fields parsed;
      Ok (Some text)
  | None => Ok None
  end.

(** ** Value escaping *)

(** The characters after which a backslash is left alone. *)
Definition keeps_backslash (next : option ascii) : bool :=
  bool_decide (next ∈ [Some "*"; Some "?"; Some backslash]%char).

(** Whether the character [c] gets a backslash, given the characters on
    its two sides: a double quote always, a backslash if none precedes it
    and none of the wildcards and backslash follows it. *)
Definition must_escape (prev : option ascii) (c : ascii) (next : option ascii)
  : bool :=
  bool_decide (c = dquote)
  || bool_decide (c = backslash)
     && negb (bool_decide (prev = Some backslash))
     && negb (keeps_backslash next).

(** The character before position [i] of [s]. *)
Definition before_position (s : list ascii) (i : nat) : option ascii :=
  match i with
  | 0 => None
  | S j => s !! j
  end.

(** The escaped text, position by position of the value. *)
Definition escape (s : list ascii) : list ascii :=
  concat (imap (λ i c, if must_escape (before_position s i) c (s !! S i)
                       then [backslash; c] else [c]) s).

(** The same, told from left to right with the character last passed. *)
Fixpoint escape_from (prev : option ascii) (s : list ascii) : list ascii :=
  match s with
  | [] => []
  | c :: s' =>
      (if must_escape prev c (head s') then [backslash; c] else [c])
      ++ escape_from (Some c) s'
  end.

(** The escaping in which a quote is escaped, and every backslash that is
    not followed by a wildcard or a backslash, whatever precedes it. *)
Fixpoint escape_whatever_precedes (s : list ascii) : list ascii :=
  match s with
  | [] => []
  | c :: s' =>
      if bool_decide (c = dquote)
         || bool_decide (c = backslash) && negb (keeps_backslash (head s'))
      then backslash :: c :: escape_whatever_precedes s'
      else c :: escape_whatever_precedes s'
  end.

(** ** List nodes *)

(** The values the type check of [SplunkBackend] lets pass. *)
Definition str_or_int (v : value) : bool :=
  match v with
  | VStr _ | VInt _ => true
  | _ => false
  end.

(** The expansion of a list node over the texts of its values. *)
Definition expansion (key : string) (texts : list string) : string :=
  "(" +:+ join " OR " ((λ text, key +:+ "=" +:+ text) <$> texts) +:+ ")".

Definition quoted (text : string) : string := DQ +:+ text +:+ DQ.

(** ** The dashboard document *)

(** A character of a query as it stands in the document. *)
Definition entity (c : ascii) : string :=
  if decide (c = "<"%char) then "&lt;"
  else if decide (c = ">"%char) then "&gt;"
  else String c "".

(** A query with each [<] and each [>] replaced by its entity. *)
Fixpoint escape_markup (query : string) : string :=
  match query with
  | "" => ""
  | String c query' => entity c +:+ escape_markup query'
  end.

(** The panel of one rule. *)
Definition panel (name query : string) : string :=
  SplunkXMLBackend.panel_pre +:+ name +:+ SplunkXMLBackend.panel_inf
  +:+ escape_markup query +:+ SplunkXMLBackend.panel_suf.

(** Three rules, each with one condition, titled [R1], [R2] and [R<3>]. *)
Definition rule_R1 : SigmaParser :=
  mkRule {[ "title" := VStr "R1" ]}
         [mkParsed (Comparison "size" (Scalar (VStr "<9>"))) None] fan_out.

Definition rule_R2 : SigmaParser :=
  mkRule {[ "title" := VStr "R2" ]} [equals "b" 2] fan_out.

Definition rule_R3 : SigmaParser :=
  mkRule {[ "title" := VStr "R<3>" ]} [equals "c" 3] fan_out.

(** The number of places of [s] at which [needle] starts. *)
Fixpoint occurrences (needle s : string) : nat :=
  (if String.prefix needle s then 1 else 0)
  + match s with
    | "" => 0
    | String _ s' => occurrences needle s'
    end.

(** * Further vocabulary *)

(** ** Aggregations *)

Definition near_events : SigmaAggregation :=
  mkAgg AGGFUNC_NEAR "near" None None "" "".

Definition grouped_sum : SigmaAggregation :=
  mkAgg AGGFUNC_SUM "sum" (Some "bytes") (Some "host") ">=" "10".

(** The function name [SplunkBackend] writes into the clause. *)
Definition written_name (a : SigmaAggregation) : string :=
  match groupfield a with
  | Some _ => if decide (aggfunc_notrans a = "count") then "dc"
              else aggfunc_notrans a
  | None => aggfunc_notrans a
  end.

(** ** Value renderings for the examples *)

(** The table of [SplunkBackend] with a value template that asks for two
    arguments, so that no value can be rendered. *)
Definition two_slot_templates : TemplateSet :=
  {| reEscape := reEscape SplunkBackend.attributes;
     reClear := reClear SplunkBackend.attributes;
     andToken := andToken SplunkBackend.attributes;
     orToken := orToken SplunkBackend.attributes;
     notToken := notToken SplunkBackend.attributes;
     subExpression := subExpression SplunkBackend.attributes;
     listExpression := listExpression SplunkBackend.attributes;
     listSeparator := listSeparator SplunkBackend.attributes;
     valueExpression := "%s%s";
     nullExpression := nullExpression SplunkBackend.attributes;
     notNullExpression := notNullExpression SplunkBackend.attributes;
     mapExpression := mapExpression SplunkBackend.attributes;
     mapListsSpecialHandling := mapListsSpecialHandling SplunkBackend.attributes;
     mapListValueExpression := mapListValueExpression SplunkBackend.attributes |}.

(** ** Field mappings and rules for the examples *)

(** A mapping that knows [a] only: the lookup of any other field raises
    [KeyError]. *)
Definition knows_a_only (field : value) : result value :=
  match field with
  | VStr "a" => Ok (VStr "A")
  | _ => Raise (KeyError (str field))
  end.

(** A mapping that fails with another exception on [b]. *)
Definition breaks_on_b (field : value) : result value :=
  match field with
  | VStr "b" => Raise (ValueError "b")
  | _ => Ok field
  end.

(** A mapping that answers every field with the empty list. *)
Definition fans_out_to_nothing (field : value) : result value :=
  Ok (VList []).

Definition fields_a_b : gmap string value :=
  {[ "fields" := VList [VStr "a"; VStr "b"] ]}.

(** A condition whose aggregation [SplunkBackend] cannot render. *)
Definition near_condition : ConditionParsed :=
  mkParsed (Comparison "a" (Scalar (VInt 1))) (Some near_events).

(** ** Rules and rule names for the examples of the dashboard *)

(** A rule titled [R4] with two top-level conditions. *)
Definition rule_R4 : SigmaParser :=
  mkRule {[ "title" := VStr "R4" ]} [equals "a" 1; equals "b" 2] fan_out.

(** A rule titled [R5] whose second condition cannot be rendered. *)
Definition rule_R5 : SigmaParser :=
  mkRule {[ "title" := VStr "R5" ]} [equals "a" 1; near_condition] fan_out.

(** A rule without a title. *)
Definition untitled : SigmaParser :=
  mkRule ∅ [equals "a" 1] fan_out.

(** The query rendering with the aggregation method of [SplunkBackend],
    which refuses [near]. *)
Definition strict_query : ConditionParsed → result (option string) :=
  SingleTextQueryBackend.generateQuery
    SplunkXMLBackend.attributes SplunkXML.generateMapItemListNode
    SplunkBackend.generateAggregation.

(** Two rules titled alike whose queries differ in a [<] written out or
    as an entity. *)
Definition rule_angle : SigmaParser :=
  mkRule {[ "title" := VStr "R6" ]}
         [mkParsed (Comparison "a" (Scalar (VStr "1<2"))) None] fan_out.

Definition rule_entity : SigmaParser :=
  mkRule {[ "title" := VStr "R6" ]}
         [mkParsed (Comparison "a" (Scalar (VStr "1&lt;2"))) None] fan_out.

(** * Properties *)

(** ** Strings and the error monad *)

Lemma append_cons (c : ascii) (s1 s2 : string) :
  String c s1 +:+ s2 = String c (s1 +:+ s2).
Proof. reflexivity. Qed.

Lemma append_assoc (s1 s2 s3 : string) :
  (s1 +:+ s2) +:+ s3 = s1 +:+ s2 +:+ s3.
Proof.
  induction s1 as [|c s1 IH]; [done |].
  by rewrite !append_cons, IH.
Qed.

Lemma append_nil_r (s : string) : s +:+ "" = s.
Proof.
  induction s as [|c s IH]; [done |].
  by rewrite append_cons, IH.
Qed.

Lemma mapM_Ok {A B : Type} (f : A → result B) (l : list A) (k : list B) :
  Forall2 (λ x y, f x = Ok y) l k → mapM f l = Ok k.
Proof.
  induction 1 as [|x y l k Hxy _ IH]; [done |].
  cbn. rewrite Hxy. cbn. by rewrite IH.
Qed.

(** ** Aggregation clauses *)

Section aggregation.
Implicit Types (agg : option SigmaAggregation) (a : SigmaAggregation).

Lemma format_scalar_clause (f x op c : string) :
  format " | stats %s(%s) as val | search val %s %s" [f; x; op; c]
  = Ok (" | stats " +:+ f +:+ "(" +:+ x +:+ ") as val | search val "
        +:+ op +:+ " " +:+ c).
Proof. rewrite <- (append_nil_r c) at 2. reflexivity. Qed.

Lemma format_grouped_clause (f x g op c : string) :
  format " | stats %s(%s) as val by %s | search val %s %s" [f; x; g; op; c]
  = Ok (" | stats " +:+ f +:+ "(" +:+ x +:+ ") as val by " +:+ g
        +:+ " | search val " +:+ op +:+ " " +:+ c).
Proof. rewrite <- (append_nil_r c) at 2. reflexivity. Qed.

(** C5: for a count aggregation with a groupfield, [SplunkBackend]
    renders the clause with the distinct count [dc] where
    [SplunkXMLBackend] renders it with [count]; without a groupfield both
    render it with [count]. *)
Theorem count_becomes_dc_only_when_grouped a :
  aggfunc a = AGGFUNC_COUNT →
  aggfunc_notrans a = "count" →
  (SplunkXMLBackend.generateAggregation (Some a)).1 = Ok (clause "count" a)
  ∧ (SplunkBackend.generateAggregation (Some a)).1
    = Ok (clause (if groupfield a is Some _ then "dc" else "count") a).
Proof.
  destruct a as [fn name fld grp op c].
  cbn [aggfunc aggfunc_notrans]. intros -> ->.
  unfold SplunkXMLBackend.generateAggregation,
    SplunkBackend.generateAggregation, clause.
  cbn [aggfunc groupfield].
  rewrite !decide_False by done.
  destruct grp as [g|];
    rewrite ?decide_True by done;
    unfold SplunkBackend.set_aggfunc_notrans;
    cbn [aggfunc_notrans aggfield groupfield cond_op condition fst or_empty
         default].
  - by rewrite !format_grouped_clause.
  - by rewrite !format_scalar_clause.
Qed.

Lemma count_becomes_dc_only_when_grouped_witness :
  ((SplunkXMLBackend.generateAggregation (Some grouped_count)).1
   = Ok " | stats count() as val by host | search val > 5"
   ∧ (SplunkBackend.generateAggregation (Some grouped_count)).1
     = Ok " | stats dc() as val by host | search val > 5")
  ∧ ((SplunkXMLBackend.generateAggregation (Some scalar_count)).1
     = Ok " | stats count() as val | search val > 5"
     ∧ (SplunkBackend.generateAggregation (Some scalar_count)).1
       = Ok " | stats count() as val | search val > 5").
Proof.
  split.
  - apply (count_becomes_dc_only_when_grouped grouped_count); reflexivity.
  - apply (count_becomes_dc_only_when_grouped scalar_count); reflexivity.
Defined.

(** C6, as stated, fails on a grouped count: rendering it with
    [SplunkBackend] rewrites the function name in the aggregation object
    it was given. *)
Lemma aggregation_object_is_written :
  (SplunkBackend.generateAggregation (Some grouped_count)).2
  = Some (mkAgg AGGFUNC_COUNT "dc" None (Some "host") ">" "5")
  ∧ (SplunkBackend.generateAggregation (Some grouped_count)).2
    ≠ Some grouped_count.
Proof. split; [reflexivity | discriminate]. Qed.

(** C6, as amended: [SplunkXMLBackend.generateAggregation] leaves the
    aggregation object as it was; [SplunkBackend.generateAggregation]
    overwrites the function name as written with [dc] when the function
    is not [near], the object has a groupfield and the name is [count],
    and leaves the object as it was in every other case; no other
    attribute is ever written. *)
Theorem aggregation_object_after_rendering agg :
  (SplunkXMLBackend.generateAggregation agg).2 = agg
  ∧ (SplunkBackend.generateAggregation agg).2 = after_rendering <$> agg.
Proof.
  destruct agg as [a|]; [| done].
  unfold SplunkXMLBackend.generateAggregation,
    SplunkBackend.generateAggregation, after_rendering.
  destruct (decide (aggfunc a = AGGFUNC_NEAR)) as [Hnear|Hnear].
  { split; [done |]. cbn [snd fmap option_fmap option_map].
    by rewrite bool_decide_eq_false_2 by by intros [? _]. }
  destruct (groupfield a) as [g|] eqn:Hg.
  - cbn [snd]. split; [done |]. cbn [fmap option_fmap option_map].
    destruct (decide (aggfunc_notrans a = "count")) as [Hname|Hname].
    + by rewrite bool_decide_eq_true_2 by by eauto.
    + rewrite bool_decide_eq_false_2; [by destruct a |].
      by intros (_ & _ & ?).
  - split; [done |]. cbn [snd fmap option_fmap option_map].
    rewrite bool_decide_eq_false_2; [done |].
    rewrite Hg. by intros (_ & [? [=]] & _).
Qed.

End aggregation.

(** ** Field projection *)

Section projection.
Context (sigmaparser : SigmaParser).

Lemma last_cons_or {A : Type} (x : A) (l : list A) (d : option A) :
  match last (x :: l) with Some y => Some y | None => d end
  = match last l with Some y => Some y | None => Some x end.
Proof. destruct l as [|y l]; [done |]. rewrite last_cons. by destruct (last (y :: l)). Qed.

Lemma resolve_fields_columns (fs ms columns : list value) (mapped : option value) :
  Forall2 (λ f m, resolve_fieldname sigmaparser f = Ok m) fs ms →
  SplunkBackend.resolve_fields sigmaparser fs columns mapped
  = if forallb str_or_list ms
    then Ok (columns ++ concat (columns_of <$> ms),
             match last ms with Some m => Some m | None => mapped end)
    else Raise (TypeError "Field mapping must return string or list").
Proof.
  intros Hms. revert columns mapped.
  induction Hms as [|f m fs ms Hm _ IH]; intros columns mapped.
  - cbn. by rewrite app_nil_r.
  - cbn [SplunkBackend.resolve_fields]. rewrite Hm. cbn [mbind result_bind].
    rewrite last_cons_or.
    destruct m as [| b | z | s | l]; try done.
    + rewrite IH. cbn [forallb str_or_list andb fmap list_fmap concat columns_of].
      destruct (forallb str_or_list ms); [| done].
      by rewrite <- app_assoc.
    + rewrite IH. cbn [forallb str_or_list andb fmap list_fmap concat columns_of].
      destruct (forallb str_or_list ms); [| done].
      by rewrite <- app_assoc.
Qed.

(** The projection clause over the columns. *)
Lemma projection_clause (fs ms : list value) :
  parsedyaml sigmaparser !! "fields" = Some (VList fs) →
  Forall2 (λ f m, resolve_fieldname sigmaparser f = Ok m) fs ms →
  forallb str_or_list ms = true →
  SplunkBackend.projection sigmaparser
  = Ok (last ms,
        Some (" | table " +:+ join "," (str <$> concat (columns_of <$> ms)))).
Proof.
  intros Hyaml Hms Htypes. unfold SplunkBackend.projection, getitem.
  rewrite Hyaml. cbn [mbind result_bind iterate].
  rewrite (resolve_fields_columns fs ms) by done. rewrite Htypes.
  cbn [mbind result_bind app]. by destruct (last ms).
Qed.

(** A run of fields answered with strings and lists adds its columns,
    whatever comes after it. *)
Lemma resolve_fields_app (pre ms rest columns : list value)
      (mapped : option value) :
  Forall2 (λ f m, resolve_fieldname sigmaparser f = Ok m) pre ms →
  forallb str_or_list ms = true →
  SplunkBackend.resolve_fields sigmaparser (pre ++ rest) columns mapped
  = SplunkBackend.resolve_fields sigmaparser rest
      (columns ++ concat (columns_of <$> ms))
      (match last ms with Some m => Some m | None => mapped end).
Proof.
  intros Hpre. revert columns mapped.
  induction Hpre as [|f m pre ms Hm _ IH]; intros columns mapped Htypes.
  - cbn. by rewrite app_nil_r.
  - cbn [forallb] in Htypes. apply andb_true_iff in Htypes as [Hmt Hms].
    cbn [app SplunkBackend.resolve_fields]. rewrite Hm.
    cbn [mbind result_bind]. rewrite last_cons_or.
    destruct m as [| b | z | s | l]; try discriminate;
      rewrite IH by done;
      cbn [fmap list_fmap concat columns_of];
      by rewrite <- app_assoc.
Qed.

(** The first answer that is neither a string nor a list stops the loop,
    before the later fields are looked up. *)
Lemma resolve_fields_bad_answer (pre ms post columns : list value)
      (mapped : option value) (f v : value) :
  Forall2 (λ x m, resolve_fieldname sigmaparser x = Ok m) pre ms →
  forallb str_or_list ms = true →
  resolve_fieldname sigmaparser f = Ok v →
  str_or_list v = false →
  SplunkBackend.resolve_fields sigmaparser (pre ++ f :: post) columns mapped
  = Raise (TypeError "Field mapping must return string or list").
Proof.
  intros Hpre Htypes Hf Hv. rewrite (resolve_fields_app pre ms) by done.
  cbn [SplunkBackend.resolve_fields]. rewrite Hf. cbn [mbind result_bind].
  by destruct v.
Qed.

(** The type error is not the handler's: it leaves the [try]. *)
Lemma projection_bad_answer (pre ms post : list value) (f v : value) :
  parsedyaml sigmaparser !! "fields" = Some (VList (pre ++ f :: post)) →
  Forall2 (λ x m, resolve_fieldname sigmaparser x = Ok m) pre ms →
  forallb str_or_list ms = true →
  resolve_fieldname sigmaparser f = Ok v →
  str_or_list v = false →
  SplunkBackend.projection sigmaparser
  = Raise (TypeError "Field mapping must return string or list").
Proof.
  intros Hyaml Hpre Htypes Hf Hv. unfold SplunkBackend.projection, getitem.
  rewrite Hyaml. cbn [mbind result_bind iterate].
  by rewrite (resolve_fields_bad_answer pre ms post [] None f v).
Qed.

(** C8: the projection step of [generate] takes the requested fields
    from the rule and resolves them through the mapping in order, a
    string answer as one column and a list answer as its elements in
    their order, and puts the columns into the clause that the text of a
    condition ends with.  At the first answer that is neither a string
    nor a list the type error leaves the [try] and [generate], whatever
    fields and conditions follow. *)
Theorem field_projection
        (generateQuery generateBefore generateAfter
         : ConditionParsed → result (option string))
        (pre ms rest : list value) :
  parsedyaml sigmaparser !! "fields" = Some (VList (pre ++ rest)) →
  Forall2 (λ f m, resolve_fieldname sigmaparser f = Ok m) pre ms →
  forallb str_or_list ms = true →
  match rest with
  | [] => True
  | f :: _ => ∃ v, resolve_fieldname sigmaparser f = Ok v
                   ∧ str_or_list v = false
  end →
  let columns := concat (columns_of <$> ms) in
  let clause := " | table " +:+ join "," (str <$> columns) in
  SplunkBackend.resolve_fields sigmaparser pre [] None
  = Ok (columns, last ms)
  ∧ SplunkBackend.projection sigmaparser
    = match rest with
      | [] => Ok (last ms, Some clause)
      | _ :: _ => Raise (TypeError "Field mapping must return string or list")
      end
  ∧ SplunkBackend.generate generateQuery generateBefore generateAfter
      sigmaparser
    = match rest with
      | [] =>
          for_in (condparsed sigmaparser)
                 (λ parsed,
                    result ← SplunkBackend.compose
                               generateQuery generateBefore generateAfter
                               (last ms) (Some clause) parsed;
                    Ok (Return result))
      | _ :: _ => Raise (TypeError "Field mapping must return string or list")
      end.
Proof.
  intros Hyaml Hpre Htypes Hrest columns clause.
  split.
  { rewrite (resolve_fields_columns pre ms) by done. rewrite Htypes.
    cbn [app]. by destruct (last ms). }
  assert (SplunkBackend.projection sigmaparser
          = match rest with
            | [] => Ok (last ms, Some clause)
            | _ :: _ =>
                Raise (TypeError "Field mapping must return string or list")
            end) as Hprojection.
  { destruct rest as [|f post].
    - rewrite app_nil_r in Hyaml. by apply (projection_clause pre ms).
    - destruct Hrest as (v & Hf & Hv).
      by apply (projection_bad_answer pre ms post f v). }
  split; [exact Hprojection |].
  unfold SplunkBackend.generate. rewrite Hprojection.
  by destruct rest.
Qed.

End projection.

Lemma field_projection_witness :
  (SplunkBackend.resolve_fields with_fields [VStr "a"; VStr "b"] [] None
   = Ok ([VStr "A"; VStr "B1"; VStr "B2"], Some (VList [VStr "B1"; VStr "B2"]))
   ∧ SplunkBackend.projection with_fields
     = Ok (Some (VList [VStr "B1"; VStr "B2"]), Some " | table A,B1,B2")
   ∧ Splunk.generate with_fields = Ok (Some "a=1 | table A,B1,B2"))
  ∧ (SplunkBackend.resolve_fields bad_answer_rule [VStr "a"] [] None
     = Ok ([VStr "A"], Some (VStr "A"))
     ∧ SplunkBackend.projection bad_answer_rule
       = Raise (TypeError "Field mapping must return string or list")
     ∧ Splunk.generate bad_answer_rule
       = Raise (TypeError "Field mapping must return string or list")).
Proof.
  split.
  - apply (field_projection with_fields Splunk.generateQuery no_text no_text
             [VStr "a"; VStr "b"] [VStr "A"; VList [VStr "B1"; VStr "B2"]] []);
      [reflexivity | repeat constructor | reflexivity | exact I].
  - apply (field_projection bad_answer_rule Splunk.generateQuery no_text no_text
             [VStr "a"] [VStr "A"] [VStr "b"; VStr "c"]);
      [reflexivity | repeat constructor | reflexivity |].
    exists (VInt 7). split; reflexivity.
Defined.

(** An answer of another type stops the projection with the type error,
    whatever was resolved before it. *)
Lemma projection_rejects_other_types :
  SplunkBackend.resolve_fields with_fields [VStr "a"; VInt 7; VStr "b"] [] None
  = Raise (TypeError "Field mapping must return string or list").
Proof. reflexivity. Qed.

(** ** The driver of [SplunkBackend] *)

Section driver.
Context (generateQuery generateBefore generateAfter
         : ConditionParsed → result (option string)).

Abbreviation projection := SplunkBackend.projection.
Abbreviation compose :=
  (SplunkBackend.compose generateQuery generateBefore generateAfter).
Abbreviation generate :=
  (SplunkBackend.generate generateQuery generateBefore generateAfter).

(** The projection reads the document and the mapping only. *)
Lemma projection_ignores_conditions yaml conditions conditions' resolve :
  projection (mkRule yaml conditions resolve)
  = projection (mkRule yaml conditions' resolve).
Proof.
  unfold projection. cbn [parsedyaml].
  destruct (getitem yaml "fields") as [requested|e]; [| done].
  cbn [mbind result_bind].
  destruct (iterate requested) as [fs|e]; [| done].
  cbn [mbind result_bind].
  assert (∀ columns mapped,
             SplunkBackend.resolve_fields (mkRule yaml conditions resolve)
               fs columns mapped
             = SplunkBackend.resolve_fields (mkRule yaml conditions' resolve)
                 fs columns mapped) as ->; [| done].
  induction fs as [|f fs IH]; intros columns mapped; [done |].
  cbn [SplunkBackend.resolve_fields resolve_fieldname].
  destruct (resolve f) as [[]|]; cbn [mbind result_bind]; auto.
Qed.

(** The text of one condition: what comes before, the query, what comes
    after and the projection clause, each if present, in this order. *)
Lemma compose_all_present parsed b q a m f :
  generateQuery parsed = Ok (Some q) →
  generateBefore parsed = Ok (Some b) →
  generateAfter parsed = Ok (Some a) →
  is_not_None m = true →
  compose (Some m) (Some f) parsed = Ok (b +:+ q +:+ a +:+ f).
Proof.
  intros Hq Hb Ha Hm. unfold SplunkBackend.compose.
  rewrite Hq, Hb, Ha. cbn. rewrite Hm. by rewrite !append_assoc.
Qed.

(** The loop over the conditions leaves in its first round. *)
Lemma generate_first_round yaml parsed rest resolve :
  generate (mkRule yaml (parsed :: rest) resolve)
  = ('(mapped, fields) ← projection (mkRule yaml [parsed] resolve);
     text ← compose mapped fields parsed;
     Ok (Some text)).
Proof.
  unfold SplunkBackend.generate.
  rewrite (projection_ignores_conditions yaml _ [parsed]).
  destruct (projection _) as [[mapped fields]|e]; [| done].
  cbn [mbind result_bind condparsed for_in].
  by destruct (compose mapped fields parsed).
Qed.

(** C1, as amended: the loop over the top-level conditions returns in
    its first round, so [generate] gives the composed text of the first
    condition and never reaches the later ones. *)
Theorem generate_returns_first_condition yaml parsed rest resolve :
  generate (mkRule yaml (parsed :: rest) resolve)
  = ('(mapped, fields) ← projection (mkRule yaml [parsed] resolve);
     text ← compose mapped fields parsed;
     Ok (Some text))
  ∧ generate (mkRule yaml (parsed :: rest) resolve)
    = generate (mkRule yaml [parsed] resolve).
Proof.
  split; [apply generate_first_round |].
  by rewrite !generate_first_round.
Qed.

(** A rule without conditions gives no text at all. *)
Lemma generate_no_condition yaml resolve mapped fields :
  projection (mkRule yaml [] resolve) = Ok (mapped, fields) →
  generate (mkRule yaml [] resolve) = Ok None.
Proof. intros H. unfold SplunkBackend.generate. by rewrite H. Qed.

(** An exception of the tree walker leaves [generate] as it is. *)
Lemma generate_propagates yaml parsed rest resolve mapped fields e :
  projection (mkRule yaml [parsed] resolve) = Ok (mapped, fields) →
  generateQuery parsed = Raise e →
  generate (mkRule yaml (parsed :: rest) resolve) = Raise e.
Proof.
  intros Hp Hq.
  rewrite generate_first_round.
  rewrite Hp. cbn. unfold SplunkBackend.compose. by rewrite Hq.
Qed.

(** Without a [fields] entry in the document the lookup raises
    [KeyError], the handler sets [mapped] to [None], and the text has no
    projection clause. *)
Lemma generate_without_field_list yaml parsed rest resolve b q a :
  yaml !! "fields" = None →
  generateQuery parsed = Ok q →
  generateBefore parsed = Ok b →
  generateAfter parsed = Ok a →
  generate (mkRule yaml (parsed :: rest) resolve)
  = Ok (Some (default "" b +:+ default "" q +:+ default "" a)).
Proof.
  intros Hyaml Hq Hb Ha.
  rewrite generate_first_round.
  unfold SplunkBackend.projection, getitem. cbn [parsedyaml]. rewrite Hyaml.
  cbn. unfold SplunkBackend.compose. rewrite Hq, Hb, Ha. cbn.
  destruct b as [b|], q as [q|], a as [a|]; cbn;
    by rewrite ?append_assoc, ?append_nil_r.
Qed.

(** C9, at the input on which it fails: with an empty field list the loop
    over the fields never assigns [mapped] and no [KeyError] reaches the
    handler, so the first condition whose texts are rendered ends in an
    [UnboundLocalError] at the test of [mapped]. *)
Theorem generate_empty_field_list yaml parsed rest resolve b q a :
  yaml !! "fields" = Some (VList []) →
  generateQuery parsed = Ok q →
  generateBefore parsed = Ok b →
  generateAfter parsed = Ok a →
  generate (mkRule yaml (parsed :: rest) resolve)
  = Raise (UnboundLocalError "mapped").
Proof.
  intros Hyaml Hq Hb Ha.
  rewrite generate_first_round.
  unfold SplunkBackend.projection, getitem. cbn [parsedyaml]. rewrite Hyaml.
  cbn. unfold SplunkBackend.compose. by rewrite Hq, Hb, Ha.
Qed.

End driver.

Lemma generate_empty_field_list_witness :
  Splunk.generate empty_fields = Raise (UnboundLocalError "mapped").
Proof.
  apply (generate_empty_field_list Splunk.generateQuery no_text no_text
           {[ "fields" := VList [] ]} (equals "a" 1) [] fan_out None
           (Some "a=1") None); reflexivity.
Defined.

(** With the field list [a, b] the columns follow the query; without a
    field list nothing follows it. *)
Lemma generate_examples :
  Splunk.generate with_fields
  = Ok (Some "a=1 | table A,B1,B2")
  ∧ Splunk.generate no_fields = Ok (Some "a=1").
Proof. split; reflexivity. Qed.

(** C1, as stated, fails on a rule with two conditions: the text returned
    is that of the first, not that of the last. *)
Lemma generate_does_not_return_last :
  length (condparsed two_conditions) = 2
  ∧ Splunk.generate two_conditions = Ok (Some "a=1")
  ∧ text_of_last Splunk.generateQuery no_text no_text two_conditions
    = Ok (Some "b=2")
  ∧ Splunk.generate two_conditions
    ≠ text_of_last Splunk.generateQuery no_text no_text two_conditions.
Proof.
  split; [reflexivity |]. split; [reflexivity |]. split; [reflexivity |].
  discriminate.
Qed.

(** ** List nodes *)

Section list_node.
Context (generateValueNode : value → result string).

Lemma format_equality (key text : string) :
  format "%s=%s" [key; text] = Ok (key +:+ "=" +:+ text).
Proof. rewrite <- (append_nil_r text) at 2. reflexivity. Qed.

Lemma equalities_rendered key values texts :
  Forall2 (λ v t, generateValueNode v = Ok t) values texts →
  mapM (λ item, text ← generateValueNode item; format "%s=%s" [key; text])
    values
  = Ok ((λ text, key +:+ "=" +:+ text) <$> texts).
Proof.
  intros H. apply mapM_Ok, Forall2_fmap_r.
  eapply Forall2_impl; [exact H |].
  intros v t Hv. cbn beta. rewrite Hv. apply format_equality.
Qed.

(** The set of types in the test of [SplunkBackend] is within
    [{str, int}] exactly when every value is a [str] or an [int]. *)
Lemma type_check values :
  list_to_set (type_of <$> values) ⊆ ({[TStr; TInt]} : gset pytype)
  ↔ Forall (λ v, str_or_int v = true) values.
Proof.
  rewrite Forall_forall. split.
  - intros Hsub v Hv.
    assert (type_of v ∈ ({[TStr; TInt]} : gset pytype)) as Ht.
    { apply Hsub, elem_of_list_to_set, list_elem_of_fmap. eauto. }
    destruct v; cbn in *; done || set_solver.
  - intros Hall t Ht.
    apply elem_of_list_to_set, list_elem_of_fmap in Ht as (v & -> & Hv).
    specialize (Hall v Hv). destruct v; cbn in *; done || set_solver.
Qed.

(** [SplunkBackend] refuses a list with a value that is neither a [str]
    nor an [int]. *)
Lemma list_node_type_error key values v :
  v ∈ values → str_or_int v = false →
  SplunkBackend.generateMapItemListNode generateValueNode key values
  = Raise (TypeError "List values must be strings or numbers").
Proof.
  intros Hv Hbad. unfold SplunkBackend.generateMapItemListNode.
  rewrite bool_decide_eq_false_2; [done |].
  rewrite type_check, Forall_forall. intros Hall.
  specialize (Hall v Hv). congruence.
Qed.

(** On a list of strings and integers it gives the expansion. *)
Lemma list_node_expansion key values texts :
  Forall (λ v, str_or_int v = true) values →
  Forall2 (λ v t, generateValueNode v = Ok t) values texts →
  SplunkBackend.generateMapItemListNode generateValueNode key values
  = Ok (expansion key texts).
Proof.
  intros Htypes Htexts. unfold SplunkBackend.generateMapItemListNode.
  rewrite bool_decide_eq_true_2 by by apply type_check.
  by rewrite (equalities_rendered key values texts).
Qed.

(** C2, at the backend on which it fails: [SplunkXMLBackend] overrides
    the list rendering with no test of the types of the values, so a
    list is expanded whatever its values are, as long as each of them is
    rendered. *)
Theorem markup_list_node_has_no_type_check key values texts :
  Forall2 (λ v t, generateValueNode v = Ok t) values texts →
  SplunkXMLBackend.generateMapItemListNode generateValueNode key values
  = Ok (expansion key texts).
Proof.
  intros Htexts. unfold SplunkXMLBackend.generateMapItemListNode.
  by rewrite (equalities_rendered key values texts).
Qed.

End list_node.

Lemma markup_list_node_has_no_type_check_witness :
  SplunkXML.generateMapItemListNode "x" [VStr "a"; VList [VStr "b"]]
  = Ok ("(x=" +:+ quoted "a" +:+ " OR x=" +:+ quoted "['b']" +:+ ")").
Proof.
  apply (markup_list_node_has_no_type_check SplunkXML.generateValueNode "x"
           [VStr "a"; VList [VStr "b"]] [quoted "a"; quoted "['b']"]).
  repeat constructor.
Defined.

(** The same list under [SplunkBackend]. *)
Lemma nested_list_refused :
  Splunk.generateMapItemListNode "x" [VStr "a"; VList [VStr "b"]]
  = Raise (TypeError "List values must be strings or numbers").
Proof.
  apply (list_node_type_error _ _ _ (VList [VStr "b"])); [set_solver | done].
Qed.

(** C3, as stated, fails: the text is not the bare expansion, it stands
    in parentheses. *)
Lemma list_node_is_not_bare :
  Splunk.generateMapItemListNode "x" [VStr "a"; VStr "b"; VInt 1]
  ≠ Ok ("x=" +:+ quoted "a" +:+ " OR x=" +:+ quoted "b" +:+ " OR x=1").
Proof. discriminate. Qed.

(** C3, as amended: the list node of [x] over [a], [b] and [1] is rendered
    as the expansion of the claim wrapped in parentheses: one equality per
    value joined with [ OR ], the strings quoted and the number left as it
    is; with special list handling on, this is the text of the node. *)
Theorem list_node_rendering :
  let text := "(x=" +:+ quoted "a" +:+ " OR x=" +:+ quoted "b"
              +:+ " OR x=1)" in
  let values := [VStr "a"; VStr "b"; VInt 1] in
  Splunk.generateMapItemListNode "x" values = Ok text
  ∧ SplunkXML.generateMapItemListNode "x" values = Ok text
  ∧ mapListsSpecialHandling SplunkBackend.attributes = true
  ∧ orToken SplunkBackend.attributes = " OR "
  ∧ Splunk.generateNode (ListNode "x" values) = Ok text
  ∧ SplunkXML.generateNode (ListNode "x" values) = Ok text.
Proof. cbv zeta. repeat split; reflexivity. Qed.

(** ** Value escaping *)

Section escaping.
Implicit Types (s before : list ascii) (c : ascii).

Abbreviation pattern := SplunkBackend.reEscape_pattern.
Abbreviation with_backslash := (λ m : list ascii, backslash :: m).

(** The pattern matches one character at a time, and which ones is told
    by the character itself and its two neighbours. *)
Lemma matches_reEscape before c s :
  Re.matches pattern before (c :: s)
  = if must_escape (head before) c (head s) then [([c], s)] else [].
Proof.
  unfold pattern, must_escape, keeps_backslash.
  cbn [Re.matches].
  assert (dquote ≠ backslash) as Hqb by (by vm_compute).
  assert (∀ n, n ∈ ["*"; "?"; backslash]%char
               ↔ Some n ∈ [Some "*"; Some "?"; Some backslash]%char) as Hin.
  { intros n. rewrite !elem_of_cons, !elem_of_nil.
    intuition (simplify_eq; auto). }
  assert (None ∉ [Some "*"; Some "?"; Some backslash]%char) as Hnone.
  { rewrite !elem_of_cons, elem_of_nil. intuition discriminate. }
  assert (∀ s,
             match
               match s with
               | [] => []
               | x :: s' =>
                   if decide (x ∈ ["*"; "?"; backslash]%char) is left _
                   then [([x], s')] else []
               end
             with
             | [] => [(@nil ascii, s)]
             | _ :: _ => []
             end
             = if keeps_backslash (head s) then [] else [([], s)]) as Hahead.
  { intros [|n s']; unfold keeps_backslash; cbn [head].
    - by rewrite bool_decide_eq_false_2.
    - case_decide; [rewrite bool_decide_eq_true_2 | rewrite bool_decide_eq_false_2];
        by rewrite <- ?Hin. }
  fold (keeps_backslash (head s)).
  destruct before as [|p before]; cbn [head].
  - rewrite (bool_decide_eq_false_2 (None = Some backslash)) by done.
    cbn -[decide bool_decide elem_of].
    repeat case_decide; repeat case_bool_decide; simplify_eq;
      cbn -[decide bool_decide elem_of]; rewrite ?Hahead;
      by destruct (keeps_backslash (head s)).
  - destruct (decide (p = backslash)) as [->|Hp].
    + rewrite (bool_decide_eq_true_2 (Some backslash = Some backslash)) by done.
      cbn -[decide bool_decide elem_of].
      repeat case_decide; repeat case_bool_decide; simplify_eq;
        by rewrite ?app_nil_r.
    + rewrite (bool_decide_eq_false_2 (Some p = Some backslash)) by congruence.
      cbn -[decide bool_decide elem_of].
      repeat case_decide; repeat case_bool_decide; simplify_eq;
        cbn -[decide bool_decide elem_of]; rewrite ?Hahead;
        by destruct (keeps_backslash (head s)).
Qed.

(** The scan escapes as [escape_from] tells. *)
Lemma sub_scan_reEscape s before :
  Re.sub_scan pattern with_backslash 0 before s
  = escape_from (head before) s.
Proof.
  revert before. induction s as [|c s IH]; intros before; [done |].
  cbn [Re.sub_scan escape_from]. rewrite matches_reEscape.
  destruct (must_escape (head before) c (head s));
    cbn [length Nat.sub app]; by rewrite IH.
Qed.

Lemma before_position_app (pre s : list ascii) :
  before_position (pre ++ s) (length pre) = last pre.
Proof.
  destruct pre as [|p pre _] using rev_ind; [done |].
  rewrite last_snoc, length_app, Nat.add_1_r. cbn [before_position].
  rewrite <- app_assoc, lookup_app_r, Nat.sub_diag by lia. done.
Qed.

(** Told from the left or by positions, the escaped text is the same. *)
Lemma escape_from_positions (s pre : list ascii) :
  escape_from (last pre) s
  = concat (imap (λ i c,
                    if must_escape
                         (before_position (pre ++ s) (length pre + i)) c
                         ((pre ++ s) !! S (length pre + i))
                    then [backslash; c] else [c]) s).
Proof.
  revert pre. induction s as [|c s IH]; intros pre; [done |].
  cbn [escape_from imap concat]. rewrite Nat.add_0_r.
  rewrite before_position_app.
  rewrite (lookup_app_r pre) by lia.
  replace (S (length pre) - length pre) with 1 by lia.
  change ((c :: s) !! 1) with (s !! 0). rewrite <- head_lookup. f_equal.
  specialize (IH (pre ++ [c])). rewrite last_snoc in IH. rewrite IH.
  f_equal. apply imap_ext. intros i x _. cbn [compose].
  rewrite <- app_assoc, length_app. cbn [app length].
  by replace (length pre + 1 + i) with (length pre + S i) by lia.
Qed.

Lemma reEscape_is_shared :
  SplunkXMLBackend.reEscape_pattern = SplunkBackend.reEscape_pattern.
Proof. reflexivity. Qed.

Lemma cleanValue_escape_from (v : string) :
  SingleTextQueryBackend.cleanValue SplunkBackend.attributes v
  = string_of_list_ascii (escape_from None (list_ascii_of_string v)).
Proof.
  unfold SingleTextQueryBackend.cleanValue, Re.sub.
  cbn [reEscape reClear SplunkBackend.attributes].
  by rewrite sub_scan_reEscape.
Qed.

Lemma format_quoted (text : string) :
  format (valueExpression SplunkBackend.attributes) [text] = Ok (quoted text).
Proof. reflexivity. Qed.

(** C4, as amended: the escaping is one pass that puts a backslash
    before each double quote and before each backslash that is neither
    preceded by a backslash nor followed by a wildcard or a backslash;
    the value rendering wraps the escaped text in double quotes.  Both
    backends escape alike. *)
Theorem value_escaping (v : string) :
  SingleTextQueryBackend.cleanValue SplunkBackend.attributes v
  = string_of_list_ascii (escape (list_ascii_of_string v))
  ∧ SingleTextQueryBackend.cleanValue SplunkXMLBackend.attributes v
    = SingleTextQueryBackend.cleanValue SplunkBackend.attributes v
  ∧ SingleTextQueryBackend.generateValueNode SplunkBackend.attributes (VStr v)
    = Ok (quoted (SingleTextQueryBackend.cleanValue SplunkBackend.attributes v)).
Proof.
  split; [| split].
  - rewrite cleanValue_escape_from. f_equal.
    exact (escape_from_positions (list_ascii_of_string v) []).
  - reflexivity.
  - unfold SingleTextQueryBackend.generateValueNode. cbn [str].
    apply format_quoted.
Qed.

End escaping.

(** C4, as stated, fails on three backslashes followed by a letter: the
    third backslash is followed by neither a wildcard nor a backslash, and
    it is left without an escape because a backslash precedes it. *)
Lemma backslash_after_backslash_not_escaped :
  SingleTextQueryBackend.cleanValue SplunkBackend.attributes "\\\a" = "\\\a"
  ∧ string_of_list_ascii
      (escape_whatever_precedes (list_ascii_of_string "\\\a"))
    = "\\\\a"
  ∧ SingleTextQueryBackend.cleanValue SplunkBackend.attributes "\\\a"
    ≠ string_of_list_ascii
        (escape_whatever_precedes (list_ascii_of_string "\\\a")).
Proof. split; [reflexivity |]. split; [reflexivity | discriminate]. Qed.

(** A lone backslash, a quote, and the sequences that are kept. *)
Lemma escaping_examples :
  SingleTextQueryBackend.cleanValue SplunkBackend.attributes "a\b" = "a\\b"
  ∧ SingleTextQueryBackend.cleanValue SplunkBackend.attributes "a\*b\?" = "a\*b\?"
  ∧ SingleTextQueryBackend.cleanValue SplunkBackend.attributes "a\\*" = "a\\*"
  ∧ SingleTextQueryBackend.cleanValue SplunkBackend.attributes "\\a" = "\\a"
  ∧ SingleTextQueryBackend.cleanValue SplunkBackend.attributes ("a" +:+ DQ)
    = "a\" +:+ DQ
  ∧ SingleTextQueryBackend.cleanValue SplunkBackend.attributes ("a\" +:+ DQ)
    = "a\\\" +:+ DQ.
Proof. repeat split. Qed.

(** ** The dashboard document of [SplunkXMLBackend] *)

Lemma replace_cons (old c : ascii) (new s : string) :
  replace old new (String c s)
  = if decide (c = old) then new +:+ replace old new s
    else String c (replace old new s).
Proof. reflexivity. Qed.

(** The two replacements of [generate], one after the other, replace each
    [<] and each [>] of the query and nothing else. *)
Lemma replace_both (query : string) :
  replace ">" "&gt;" (replace "<" "&lt;" query) = escape_markup query.
Proof.
  induction query as [|c query IH]; [done |].
  rewrite replace_cons. cbn [escape_markup]. unfold entity.
  destruct (decide (c = "<"%char)) as [->|Hlt].
  - rewrite <- IH. reflexivity.
  - rewrite replace_cons, IH. by destruct (decide (c = ">"%char)).
Qed.

(** No [<] and no [>] is left in an escaped query. *)
Lemma contains_append (c : ascii) (s1 s2 : string) :
  contains c (s1 +:+ s2) = contains c s1 || contains c s2.
Proof.
  induction s1 as [|c1 s1 IH]; [done |].
  rewrite append_cons. cbn [contains]. by rewrite IH, orb_assoc.
Qed.

Lemma escape_markup_clean (query : string) :
  contains "<" (escape_markup query) = false
  ∧ contains ">" (escape_markup query) = false.
Proof.
  induction query as [|c query [IHlt IHgt]]; [done |].
  cbn [escape_markup]. rewrite !contains_append, IHlt, IHgt, !orb_false_r.
  unfold entity. repeat case_decide; subst; cbn [contains orb];
    rewrite ?bool_decide_eq_false_2 by done; done.
Qed.

Section document.
Context {S : Type}.
Context (generateQuery : ConditionParsed → result (option string)).
Context (getRuleName : SigmaParser → S → result string * S).

Abbreviation generate :=
  (SplunkXMLBackend.generate generateQuery getRuleName).
Abbreviation finalize := (SplunkXMLBackend.finalize (S:=S)).

(** One rule with one condition appends its panel, and nothing else, to
    the document. *)
Lemma generate_appends_panel sigmaparser parsed query name names self :
  condparsed sigmaparser = [parsed] →
  generateQuery parsed = Ok (Some query) →
  getRuleName sigmaparser (SplunkXMLBackend.mixin self) = (Ok name, names) →
  generate sigmaparser self
  = (Ok (), SplunkXMLBackend.mkInstance
              (SplunkXMLBackend.queries self +:+ panel name query) names).
Proof.
  intros Hcond Hquery Hname.
  unfold SplunkXMLBackend.generate. rewrite Hcond.
  cbn [SplunkXMLBackend.generate_loop].
  unfold mbind, SplunkXMLBackend.method_bind, SplunkXMLBackend.call.
  rewrite Hquery.
  unfold SplunkXMLBackend.queries_add, SplunkXMLBackend.call_getRuleName.
  cbn [SplunkXMLBackend.queries SplunkXMLBackend.mixin].
  rewrite Hname. cbn [SplunkXMLBackend.queries SplunkXMLBackend.mixin mret
                      SplunkXMLBackend.method_ret].
  rewrite replace_both. unfold panel. by rewrite !append_assoc.
Qed.

Lemma finalize_appends_suffix (self : SplunkXMLBackend.instance S) :
  finalize self
  = (Ok (SplunkXMLBackend.queries self +:+ SplunkXMLBackend.dash_suf),
     SplunkXMLBackend.mkInstance
       (SplunkXMLBackend.queries self +:+ SplunkXMLBackend.dash_suf)
       (SplunkXMLBackend.mixin self)).
Proof. reflexivity. Qed.

(** C7: two rules in turn and then [finalize] give the document that
    opens with the one preamble, holds the panel of the first rule and
    then that of the second, each with its query free of [<] and [>], and
    closes with the one suffix. *)
Theorem two_rules_document R1 R2 parsed1 parsed2 q1 q2 name1 name2
        (names0 names1 names2 : S) :
  condparsed R1 = [parsed1] →
  condparsed R2 = [parsed2] →
  generateQuery parsed1 = Ok (Some q1) →
  generateQuery parsed2 = Ok (Some q2) →
  getRuleName R1 names0 = (Ok name1, names1) →
  getRuleName R2 names1 = (Ok name2, names2) →
  let document :=
    SplunkXMLBackend.dash_pre +:+ panel name1 q1 +:+ panel name2 q2
    +:+ SplunkXMLBackend.dash_suf in
  (generate R1;; generate R2;; finalize) (SplunkXMLBackend.new names0)
  = (Ok document, SplunkXMLBackend.mkInstance document names2)
  ∧ contains "<" (escape_markup q1) = false
  ∧ contains ">" (escape_markup q1) = false
  ∧ contains "<" (escape_markup q2) = false
  ∧ contains ">" (escape_markup q2) = false.
Proof.
  intros Hc1 Hc2 Hq1 Hq2 Hn1 Hn2 document.
  split; [| by destruct (escape_markup_clean q1), (escape_markup_clean q2)].
  unfold mbind at 1, SplunkXMLBackend.method_bind at 1.
  rewrite (generate_appends_panel R1 parsed1 q1 name1 names1) by done.
  unfold mbind at 1, SplunkXMLBackend.method_bind at 1.
  rewrite (generate_appends_panel R2 parsed2 q2 name2 names2) by done.
  rewrite finalize_appends_suffix.
  cbn [SplunkXMLBackend.queries SplunkXMLBackend.mixin SplunkXMLBackend.new].
  unfold document. by rewrite !append_assoc.
Qed.

(** C10: the name that [getRuleName] gives is put into the document as
    it is, between the opening of the panel and the opening of the query,
    while the query is put in with its [<] and [>] replaced. *)
Theorem rule_name_verbatim sigmaparser parsed query name names self :
  condparsed sigmaparser = [parsed] →
  generateQuery parsed = Ok (Some query) →
  getRuleName sigmaparser (SplunkXMLBackend.mixin self) = (Ok name, names) →
  let document :=
    SplunkXMLBackend.queries self +:+ SplunkXMLBackend.panel_pre +:+ name
    +:+ SplunkXMLBackend.panel_inf +:+ escape_markup query
    +:+ SplunkXMLBackend.panel_suf +:+ SplunkXMLBackend.dash_suf in
  (generate sigmaparser;; finalize) self
  = (Ok document, SplunkXMLBackend.mkInstance document names).
Proof.
  intros Hcond Hquery Hname document.
  unfold mbind at 1, SplunkXMLBackend.method_bind at 1.
  rewrite (generate_appends_panel sigmaparser parsed query name names) by done.
  rewrite finalize_appends_suffix.
  cbn [SplunkXMLBackend.queries SplunkXMLBackend.mixin].
  unfold document, panel. by rewrite !append_assoc.
Qed.

End document.

Lemma two_rules_document_witness :
  let document :=
    SplunkXMLBackend.dash_pre
    +:+ panel "R1" ("size=" +:+ quoted "<9>")
    +:+ panel "R2" "b=2"
    +:+ SplunkXMLBackend.dash_suf in
  (SplunkXML.generate rule_R1;; SplunkXML.generate rule_R2;;
   SplunkXMLBackend.finalize) (SplunkXMLBackend.new ())
  = (Ok document, SplunkXMLBackend.mkInstance document ())
  ∧ contains "<" (escape_markup ("size=" +:+ quoted "<9>")) = false
  ∧ contains ">" (escape_markup ("size=" +:+ quoted "<9>")) = false
  ∧ contains "<" (escape_markup "b=2") = false
  ∧ contains ">" (escape_markup "b=2") = false.
Proof.
  apply (two_rules_document SplunkXML.generateQuery SplunkXML.getRuleName
           rule_R1 rule_R2
           (mkParsed (Comparison "size" (Scalar (VStr "<9>"))) None)
           (equals "b" 2)
           ("size=" +:+ quoted "<9>") "b=2"
           "R1" "R2" () () ()); reflexivity.
Defined.

(** In that document the preamble and the suffix each stand once, and the
    query of the first rule stands with its entities. *)
Lemma preamble_and_suffix_stand_once :
  ∃ document self,
    (SplunkXML.generate rule_R1;; SplunkXML.generate rule_R2;;
     SplunkXMLBackend.finalize) (SplunkXMLBackend.new ())
    = (Ok document, self)
    ∧ occurrences SplunkXMLBackend.dash_pre document = 1
    ∧ occurrences SplunkXMLBackend.dash_suf document = 1
    ∧ occurrences ("<query>size=" +:+ quoted "&lt;9&gt;" +:+ "</query>")
                  document = 1
    ∧ String.prefix SplunkXMLBackend.dash_pre document = true.
Proof. eexists _, _. split; [reflexivity |]. by vm_compute. Qed.

Lemma rule_name_verbatim_witness :
  let document :=
    SplunkXMLBackend.dash_pre +:+ SplunkXMLBackend.panel_pre +:+ "R<3>"
    +:+ SplunkXMLBackend.panel_inf +:+ escape_markup "c=3"
    +:+ SplunkXMLBackend.panel_suf +:+ SplunkXMLBackend.dash_suf in
  (SplunkXML.generate rule_R3;; SplunkXMLBackend.finalize)
    (SplunkXMLBackend.new ())
  = (Ok document, SplunkXMLBackend.mkInstance document ()).
Proof.
  apply (rule_name_verbatim SplunkXML.generateQuery SplunkXML.getRuleName
           rule_R3 (equals "c" 3) "c=3" "R<3>" ()
           (SplunkXMLBackend.new ())); reflexivity.
Defined.

(** The title with its [<] and [>] stands in the document of that rule. *)
Lemma title_stands_in_document :
  ∃ document self,
    (SplunkXML.generate rule_R3;; SplunkXMLBackend.finalize)
      (SplunkXMLBackend.new ())
    = (Ok document, self)
    ∧ occurrences "<title>R<3></title>" document = 1
    ∧ occurrences "&lt;" document = 0.
Proof. eexists _, _. split; [reflexivity |]. by vm_compute. Qed.

(** * Further properties of the two classes *)

(** ** List nodes *)

Section list_node_more.
Context (generateValueNode : value → result string).

Lemma mapM_Raise {A B : Type} (f : A → result B) (pre post : list A)
      (k : list B) (x : A) (e : exception) :
  Forall2 (λ a b, f a = Ok b) pre k →
  f x = Raise e →
  mapM f (pre ++ x :: post) = Raise e.
Proof.
  intros Hpre Hx. induction Hpre as [|a b pre k Hab _ IH].
  - cbn. by rewrite Hx.
  - cbn. rewrite Hab. cbn. cbn in IH. by rewrite IH.
Qed.

(** X1: the type test of [SplunkBackend] comes before any rendering: a
    list with a value whose type is not exactly [str] or [int] (a bool,
    [None], a nested list) ends in the type error whatever the value
    rendering does. *)
Theorem list_type_test_precedes_rendering key values v :
  v ∈ values →
  str_or_int v = false →
  SplunkBackend.generateMapItemListNode generateValueNode key values
  = Raise (TypeError "List values must be strings or numbers").
Proof. apply list_node_type_error. Qed.

Lemma list_backends_agree_on_scalars_aux key values :
  Forall (λ v, str_or_int v = true) values →
  SplunkBackend.generateMapItemListNode generateValueNode key values
  = SplunkXMLBackend.generateMapItemListNode generateValueNode key values.
Proof.
  intros Htypes.
  unfold SplunkBackend.generateMapItemListNode,
    SplunkXMLBackend.generateMapItemListNode.
  by rewrite bool_decide_eq_true_2 by by apply type_check.
Qed.

(** X2: on a list of strings and integers the two classes give the same
    outcome, text or exception. *)
Theorem list_backends_agree_on_scalars key values :
  Forall (λ v, str_or_int v = true) values →
  SplunkBackend.generateMapItemListNode generateValueNode key values
  = SplunkXMLBackend.generateMapItemListNode generateValueNode key values.
Proof. apply list_backends_agree_on_scalars_aux. Qed.

(** X3: the values are rendered from left to right, and the exception of
    the first value that cannot be rendered leaves the list rendering of
    [SplunkXMLBackend]. *)
Theorem list_rendering_stops_at_first_failure key pre v post texts e :
  Forall2 (λ item text, generateValueNode item = Ok text) pre texts →
  generateValueNode v = Raise e →
  SplunkXMLBackend.generateMapItemListNode generateValueNode key
    (pre ++ v :: post)
  = Raise e.
Proof.
  intros Hpre Hv. unfold SplunkXMLBackend.generateMapItemListNode.
  rewrite (mapM_Raise _ pre post ((λ text, key +:+ "=" +:+ text) <$> texts) v e);
    [done | |].
  - apply Forall2_fmap_r. eapply Forall2_impl; [exact Hpre |].
    intros item text Hitem. cbn beta. rewrite Hitem. apply format_equality.
  - by rewrite Hv.
Qed.

(** X4: a list node without values is rendered as an empty pair of
    parentheses by both classes. *)
Theorem empty_list_node key :
  SplunkBackend.generateMapItemListNode generateValueNode key [] = Ok "()"
  ∧ SplunkXMLBackend.generateMapItemListNode generateValueNode key []
    = Ok "()".
Proof.
  rewrite (list_backends_agree_on_scalars_aux key []) by constructor.
  split; reflexivity.
Qed.

End list_node_more.

Lemma list_type_test_precedes_rendering_witness :
  Splunk.generateMapItemListNode "x" [VInt 1; VBool true]
  = Raise (TypeError "List values must be strings or numbers").
Proof.
  apply (list_type_test_precedes_rendering Splunk.generateValueNode "x"
           [VInt 1; VBool true] (VBool true)).
  - right. left.
  - reflexivity.
Defined.

Lemma list_backends_agree_on_scalars_witness :
  Splunk.generateMapItemListNode "x" [VStr "a"; VInt 1]
  = SplunkXMLBackend.generateMapItemListNode Splunk.generateValueNode "x"
      [VStr "a"; VInt 1].
Proof.
  apply (list_backends_agree_on_scalars Splunk.generateValueNode "x"
           [VStr "a"; VInt 1]).
  repeat constructor.
Defined.

Lemma list_rendering_stops_at_first_failure_witness :
  SplunkXMLBackend.generateMapItemListNode
    (SingleTextQueryBackend.generateValueNode two_slot_templates) "x"
    [VStr "a"; VStr "b"]
  = Raise (TypeError "not enough arguments for format string").
Proof.
  apply (list_rendering_stops_at_first_failure
           (SingleTextQueryBackend.generateValueNode two_slot_templates) "x"
           [] (VStr "a") [VStr "b"] []).
  - constructor.
  - reflexivity.
Defined.

(** ** Aggregation clauses *)

Section aggregation_more.
Implicit Types (agg : option SigmaAggregation) (a : SigmaAggregation).

Lemma xml_clause a :
  aggfunc a ≠ AGGFUNC_NEAR →
  SplunkXMLBackend.generateAggregation (Some a)
  = (Ok (clause (aggfunc_notrans a) a), Some a).
Proof.
  intros Hnear. unfold SplunkXMLBackend.generateAggregation, clause.
  rewrite decide_False by done.
  destruct (groupfield a) as [g|] eqn:Hg.
  - by rewrite format_grouped_clause.
  - by rewrite format_scalar_clause.
Qed.

Lemma splunk_clause a :
  aggfunc a ≠ AGGFUNC_NEAR →
  SplunkBackend.generateAggregation (Some a)
  = (Ok (clause (written_name a) a),
     Some (if groupfield a is Some _
           then SplunkBackend.set_aggfunc_notrans (written_name a) a
           else a)).
Proof.
  intros Hnear. unfold SplunkBackend.generateAggregation, clause, written_name.
  rewrite decide_False by done.
  destruct a as [fn name fld [g|] op c]; cbn [groupfield aggfunc_notrans].
  - destruct (decide (name = "count")) as [->|Hname];
      unfold SplunkBackend.set_aggfunc_notrans;
      cbn [aggfunc aggfunc_notrans aggfield groupfield cond_op condition
           or_empty];
      by rewrite format_grouped_clause.
  - cbn [aggfunc aggfunc_notrans aggfield groupfield cond_op condition].
    by rewrite format_scalar_clause.
Qed.

(** X5: the two classes differ on the [near] function: [SplunkBackend]
    raises [NotImplementedError], [SplunkXMLBackend] gives the empty
    clause; neither touches the aggregation object. *)
Theorem near_policy a :
  aggfunc a = AGGFUNC_NEAR →
  SplunkBackend.generateAggregation (Some a)
  = (Raise (NotImplementedError
              "The 'near' aggregation operator is not yet implemented for this backend"),
     Some a)
  ∧ SplunkXMLBackend.generateAggregation (Some a) = (Ok "", Some a).
Proof.
  intros Hnear.
  unfold SplunkBackend.generateAggregation,
    SplunkXMLBackend.generateAggregation.
  by rewrite !decide_True by done.
Qed.

(** X6: for every function but [near], whatever its name, the clause of
    [SplunkXMLBackend] carries the name as written, the field or nothing,
    the groupfield if there is one, and the operator and the threshold as
    they are; [SplunkBackend] gives the same clause but for the name of a
    grouped count. *)
Theorem clause_passes_attributes_through a :
  aggfunc a ≠ AGGFUNC_NEAR →
  (SplunkXMLBackend.generateAggregation (Some a)).1
  = Ok (clause (aggfunc_notrans a) a)
  ∧ (SplunkBackend.generateAggregation (Some a)).1
    = Ok (clause (written_name a) a).
Proof. intros Hnear. by rewrite xml_clause, splunk_clause. Qed.

(** X7: rendering an aggregation again with [SplunkBackend] gives the
    same outcome and leaves the object as the first rendering left it. *)
Theorem aggregation_rendering_idempotent agg :
  SplunkBackend.generateAggregation
    (SplunkBackend.generateAggregation agg).2
  = SplunkBackend.generateAggregation agg.
Proof.
  destruct agg as [a|]; [| done].
  destruct (decide (aggfunc a = AGGFUNC_NEAR)) as [Hnear|Hnear].
  { unfold SplunkBackend.generateAggregation at 2.
    by rewrite decide_True by done. }
  rewrite (splunk_clause a) by done. cbn [snd].
  destruct a as [fn name fld [g|] op c]; cbn [groupfield];
    [| by rewrite splunk_clause].
  rewrite splunk_clause by done.
  unfold written_name, SplunkBackend.set_aggfunc_notrans, clause.
  cbn [aggfunc aggfunc_notrans aggfield groupfield cond_op condition].
  destruct (decide (name = "count")) as [->|Hname].
  - by rewrite decide_False by done.
  - by rewrite !decide_False by done.
Qed.

(** X8: the write of [SplunkBackend] reaches whoever renders the same
    object afterwards: a grouped count that [SplunkXMLBackend] renders
    with [count] is rendered by it with [dc] once [SplunkBackend] has
    rendered the object. *)
Theorem written_name_reaches_other_backend a g :
  aggfunc a ≠ AGGFUNC_NEAR →
  groupfield a = Some g →
  aggfunc_notrans a = "count" →
  (SplunkXMLBackend.generateAggregation (Some a)).1 = Ok (clause "count" a)
  ∧ (SplunkXMLBackend.generateAggregation
       (SplunkBackend.generateAggregation (Some a)).2).1
    = Ok (clause "dc" a).
Proof.
  intros Hnear Hg Hname. rewrite xml_clause, Hname by done.
  split; [done |].
  rewrite splunk_clause by done. rewrite Hg. cbn [snd].
  rewrite xml_clause by done.
  unfold written_name. rewrite Hg, Hname. by rewrite decide_True by done.
Qed.

(** X29: rendering an aggregation raises in one case only, the [near]
    function under [SplunkBackend]; [SplunkXMLBackend] always gives a
    text and leaves the object as it was. *)
Theorem aggregation_raises_only_on_near agg :
  (∃ text, SplunkXMLBackend.generateAggregation agg = (Ok text, agg))
  ∧ ∀ e, (SplunkBackend.generateAggregation agg).1 = Raise e →
         ∃ a, agg = Some a ∧ aggfunc a = AGGFUNC_NEAR
              ∧ e = NotImplementedError
                      "The 'near' aggregation operator is not yet implemented for this backend".
Proof.
  destruct agg as [a|].
  - destruct (decide (aggfunc a = AGGFUNC_NEAR)) as [Hnear|Hnear].
    + unfold SplunkXMLBackend.generateAggregation,
        SplunkBackend.generateAggregation.
      rewrite !decide_True by done. split; [by eexists |].
      intros e [= <-]. by exists a.
    + rewrite xml_clause, splunk_clause by done.
      split; [by eexists | done].
  - split; [by eexists | done].
Qed.

End aggregation_more.

Lemma near_policy_witness :
  SplunkBackend.generateAggregation (Some near_events)
  = (Raise (NotImplementedError
              "The 'near' aggregation operator is not yet implemented for this backend"),
     Some near_events)
  ∧ SplunkXMLBackend.generateAggregation (Some near_events)
    = (Ok "", Some near_events).
Proof. apply (near_policy near_events). reflexivity. Defined.

Lemma clause_passes_attributes_through_witness :
  (SplunkXMLBackend.generateAggregation (Some grouped_sum)).1
  = Ok " | stats sum(bytes) as val by host | search val >= 10"
  ∧ (SplunkBackend.generateAggregation (Some grouped_sum)).1
    = Ok " | stats sum(bytes) as val by host | search val >= 10".
Proof. apply (clause_passes_attributes_through grouped_sum). discriminate. Defined.

Lemma written_name_reaches_other_backend_witness :
  (SplunkXMLBackend.generateAggregation (Some grouped_count)).1
  = Ok " | stats count() as val by host | search val > 5"
  ∧ (SplunkXMLBackend.generateAggregation
       (SplunkBackend.generateAggregation (Some grouped_count)).2).1
    = Ok " | stats dc() as val by host | search val > 5".
Proof.
  apply (written_name_reaches_other_backend grouped_count "host");
    [discriminate | reflexivity | reflexivity].
Defined.

(** ** The driver of [SplunkBackend] *)

Section driver_more.
Context (generateQuery generateBefore generateAfter
         : ConditionParsed → result (option string)).

Abbreviation generate :=
  (SplunkBackend.generate generateQuery generateBefore generateAfter).

Lemma resolve_fields_raise sigmaparser pre ms f post e columns mapped :
  Forall2 (λ x m, resolve_fieldname sigmaparser x = Ok m) pre ms →
  forallb str_or_list ms = true →
  resolve_fieldname sigmaparser f = Raise e →
  SplunkBackend.resolve_fields sigmaparser (pre ++ f :: post) columns mapped
  = Raise e.
Proof.
  intros Hpre. revert columns mapped.
  induction Hpre as [|x m pre ms Hx _ IH]; intros columns mapped Htypes Hf.
  - cbn. by rewrite Hf.
  - cbn [forallb] in Htypes. apply andb_true_iff in Htypes as [Hm Hms].
    cbn [app SplunkBackend.resolve_fields]. rewrite Hx.
    cbn [mbind result_bind].
    destruct m; try discriminate; by apply IH.
Qed.

(** The projection when the mapping raises on a field. *)
Lemma projection_raise yaml conditions resolve pre ms f post e :
  yaml !! "fields" = Some (VList (pre ++ f :: post)) →
  Forall2 (λ x m, resolve x = Ok m) pre ms →
  forallb str_or_list ms = true →
  resolve f = Raise e →
  SplunkBackend.projection (mkRule yaml conditions resolve)
  = match e with
    | KeyError _ => Ok (Some VNone, None)
    | _ => Raise e
    end.
Proof.
  intros Hyaml Hpre Htypes Hf.
  unfold SplunkBackend.projection, getitem. cbn [parsedyaml]. rewrite Hyaml.
  cbn [mbind result_bind iterate].
  rewrite (resolve_fields_raise (mkRule yaml conditions resolve)
             pre ms f post e) by done.
  by destruct e.
Qed.

(** The text of a condition when there is no projection. *)
Lemma compose_without_projection parsed b q a :
  generateQuery parsed = Ok q →
  generateBefore parsed = Ok b →
  generateAfter parsed = Ok a →
  SplunkBackend.compose generateQuery generateBefore generateAfter
    (Some VNone) None parsed
  = Ok (default "" b +:+ default "" q +:+ default "" a).
Proof.
  intros Hq Hb Ha. unfold SplunkBackend.compose. rewrite Hq, Hb, Ha. cbn.
  destruct b as [b|], q as [q|], a as [a|]; cbn;
    by rewrite ?append_assoc, ?append_nil_r.
Qed.

(** The text of a condition when there is a projection. *)
Lemma compose_with_projection parsed b q a m clause :
  generateQuery parsed = Ok q →
  generateBefore parsed = Ok b →
  generateAfter parsed = Ok a →
  is_not_None m = true →
  SplunkBackend.compose generateQuery generateBefore generateAfter
    (Some m) (Some clause) parsed
  = Ok (default "" b +:+ default "" q +:+ default "" a +:+ clause).
Proof.
  intros Hq Hb Ha Hm. unfold SplunkBackend.compose. rewrite Hq, Hb, Ha. cbn.
  rewrite Hm.
  destruct b as [b|], q as [q|], a as [a|]; cbn;
    by rewrite ?append_assoc, ?append_nil_r.
Qed.

Lemma last_str_or_list (ms : list value) :
  ms ≠ [] → forallb str_or_list ms = true →
  ∃ m, last ms = Some m ∧ is_not_None m = true.
Proof.
  intros Hne Htypes. destruct ms as [|m0 ms] using rev_ind; [done |].
  rewrite last_snoc. exists m0. split; [done |].
  rewrite forallb_app in Htypes. apply andb_true_iff in Htypes as [_ Hm].
  cbn in Hm. by destruct m0.
Qed.

Lemma generate_with_columns yaml parsed rest resolve fs ms b q a :
  yaml !! "fields" = Some (VList fs) →
  Forall2 (λ f m, resolve f = Ok m) fs ms →
  forallb str_or_list ms = true →
  ms ≠ [] →
  generateQuery parsed = Ok q →
  generateBefore parsed = Ok b →
  generateAfter parsed = Ok a →
  generate (mkRule yaml (parsed :: rest) resolve)
  = Ok (Some (default "" b +:+ default "" q +:+ default "" a
              +:+ " | table "
              +:+ join "," (str <$> concat (columns_of <$> ms)))).
Proof.
  intros Hyaml Hms Htypes Hne Hq Hb Ha.
  rewrite generate_first_round.
  rewrite (projection_clause (mkRule yaml [parsed] resolve) fs ms) by done.
  destruct (last_str_or_list ms) as (m & -> & Hm); [done | done |].
  cbn [mbind result_bind].
  by rewrite (compose_with_projection parsed b q a m) by done.
Qed.

(** X9: a [KeyError] of the field mapping is taken for a missing field
    list: the handler swallows it, the columns resolved so far are
    dropped, and the text comes without a projection clause. *)
Theorem mapping_KeyError_drops_projection
        yaml parsed rest resolve pre ms f post k b q a :
  yaml !! "fields" = Some (VList (pre ++ f :: post)) →
  Forall2 (λ x m, resolve x = Ok m) pre ms →
  forallb str_or_list ms = true →
  resolve f = Raise (KeyError k) →
  generateQuery parsed = Ok q →
  generateBefore parsed = Ok b →
  generateAfter parsed = Ok a →
  generate (mkRule yaml (parsed :: rest) resolve)
  = Ok (Some (default "" b +:+ default "" q +:+ default "" a)).
Proof.
  intros Hyaml Hpre Htypes Hf Hq Hb Ha.
  rewrite generate_first_round.
  rewrite (projection_raise yaml [parsed] resolve pre ms f post (KeyError k))
    by done.
  cbn [mbind result_bind].
  by rewrite (compose_without_projection parsed b q a).
Qed.

(** X10: any other exception of the field mapping leaves [generate] as
    it is, before a condition is looked at. *)
Theorem mapping_error_propagates yaml conditions resolve pre ms f post e :
  yaml !! "fields" = Some (VList (pre ++ f :: post)) →
  Forall2 (λ x m, resolve x = Ok m) pre ms →
  forallb str_or_list ms = true →
  resolve f = Raise e →
  (∀ k, e ≠ KeyError k) →
  generate (mkRule yaml conditions resolve) = Raise e.
Proof.
  intros Hyaml Hpre Htypes Hf He. unfold SplunkBackend.generate.
  rewrite (projection_raise yaml conditions resolve pre ms f post e) by done.
  destruct e; try done. by destruct (He key).
Qed.

(** X11: the first answer of the mapping that is neither a string nor
    a list fails the rule with the type error at once: before the later
    fields are looked up, whatever their lookups would do, and before any
    condition is rendered, whatever the conditions are. *)
Theorem bad_mapping_type_fails_first
        yaml conditions resolve pre ms f v post :
  yaml !! "fields" = Some (VList (pre ++ f :: post)) →
  Forall2 (λ x m, resolve x = Ok m) pre ms →
  forallb str_or_list ms = true →
  resolve f = Ok v →
  str_or_list v = false →
  generate (mkRule yaml conditions resolve)
  = Raise (TypeError "Field mapping must return string or list").
Proof.
  intros Hyaml Hpre Htypes Hf Hv. unfold SplunkBackend.generate.
  by rewrite (projection_bad_answer (mkRule yaml conditions resolve)
                pre ms post f v).
Qed.

(** X12: with a field list that resolves to columns, the text of the
    first condition is what comes before, the query, what comes after and
    the clause [ | table ] over the columns joined by commas, in this
    order. *)
Theorem generate_appends_table_clause yaml parsed rest resolve fs ms b q a :
  yaml !! "fields" = Some (VList fs) →
  Forall2 (λ f m, resolve f = Ok m) fs ms →
  forallb str_or_list ms = true →
  ms ≠ [] →
  generateQuery parsed = Ok q →
  generateBefore parsed = Ok b →
  generateAfter parsed = Ok a →
  generate (mkRule yaml (parsed :: rest) resolve)
  = Ok (Some (default "" b +:+ default "" q +:+ default "" a
              +:+ " | table "
              +:+ join "," (str <$> concat (columns_of <$> ms)))).
Proof. apply generate_with_columns. Qed.

(** X13: when every requested field fans out to no column at all, the
    clause is still appended, with nothing after [ | table ]. *)
Theorem empty_fan_out_leaves_bare_clause yaml parsed rest resolve fs b q a :
  yaml !! "fields" = Some (VList fs) →
  fs ≠ [] →
  Forall (λ f, resolve f = Ok (VList [])) fs →
  generateQuery parsed = Ok q →
  generateBefore parsed = Ok b →
  generateAfter parsed = Ok a →
  generate (mkRule yaml (parsed :: rest) resolve)
  = Ok (Some (default "" b +:+ default "" q +:+ default "" a
              +:+ " | table ")).
Proof.
  intros Hyaml Hne Hfs Hq Hb Ha.
  set (ms := replicate (length fs) (VList [])).
  assert (Forall2 (λ f m, resolve f = Ok m) fs ms) as Hms.
  { subst ms. clear Hne Hyaml.
    induction Hfs as [|f fs Hf _ IH]; cbn; by constructor. }
  assert (forallb str_or_list ms = true) as Htypes.
  { subst ms. clear. by induction fs. }
  assert (ms ≠ []) as Hms_ne.
  { subst ms. by destruct fs. }
  assert (concat (columns_of <$> ms) = []) as Hnone.
  { subst ms. clear. by induction fs. }
  rewrite (generate_with_columns yaml parsed rest resolve fs ms b q a)
    by done.
  by rewrite Hnone.
Qed.

(** X14: a rule without a condition gives no text, [None], when it has
    no field list or an empty one: nothing reads [mapped] then. *)
Theorem generate_without_conditions yaml resolve :
  yaml !! "fields" = None ∨ yaml !! "fields" = Some (VList []) →
  generate (mkRule yaml [] resolve) = Ok None.
Proof.
  intros Hyaml.
  unfold SplunkBackend.generate, SplunkBackend.projection, getitem.
  cbn [parsedyaml]. by destruct Hyaml as [-> | ->].
Qed.

(** X15: a field list that is [None], a bool or an integer cannot be
    iterated, and the rule fails with a type error whatever its
    conditions are. *)
Theorem fields_not_iterable yaml conditions resolve v :
  yaml !! "fields" = Some v →
  match v with
  | VNone | VBool _ | VInt _ => True
  | _ => False
  end →
  ∃ msg, iterate v = Raise (TypeError msg)
         ∧ generate (mkRule yaml conditions resolve) = Raise (TypeError msg).
Proof.
  intros Hyaml Hv.
  unfold SplunkBackend.generate, SplunkBackend.projection, getitem.
  cbn [parsedyaml]. rewrite Hyaml.
  destruct v; try done; by eexists.
Qed.

(** X16: an exception of the query rendering of the first condition
    leaves [generate] as it is, once the projection is through; the texts
    before and after are not asked for. *)
Theorem query_exception_propagates yaml parsed rest resolve mapped fields e :
  SplunkBackend.projection (mkRule yaml [parsed] resolve)
  = Ok (mapped, fields) →
  generateQuery parsed = Raise e →
  generate (mkRule yaml (parsed :: rest) resolve) = Raise e.
Proof. apply generate_propagates. Qed.

End driver_more.

Lemma mapping_KeyError_drops_projection_witness :
  SplunkBackend.generate Splunk.generateQuery no_text no_text
    (mkRule fields_a_b [equals "a" 1] knows_a_only)
  = Ok (Some "a=1").
Proof.
  apply (mapping_KeyError_drops_projection
           Splunk.generateQuery no_text no_text
           fields_a_b (equals "a" 1) [] knows_a_only
           [VStr "a"] [VStr "A"] (VStr "b") [] "b"
           None (Some "a=1") None);
    try reflexivity.
  repeat constructor.
Defined.

Lemma mapping_error_propagates_witness :
  SplunkBackend.generate Splunk.generateQuery no_text no_text
    (mkRule fields_a_b [] breaks_on_b)
  = Raise (ValueError "b").
Proof.
  apply (mapping_error_propagates Splunk.generateQuery no_text no_text
           fields_a_b [] breaks_on_b
           [VStr "a"] [VStr "a"] (VStr "b") [] (ValueError "b"));
    try reflexivity.
  - repeat constructor.
  - discriminate.
Defined.

Lemma bad_mapping_type_fails_first_witness :
  SplunkBackend.generate Splunk.generateQuery no_text no_text
    (mkRule {[ "fields" := VList [VStr "a"; VStr "b"; VStr "c"] ]}
            [near_condition] number_then_KeyError)
  = Raise (TypeError "Field mapping must return string or list").
Proof.
  apply (bad_mapping_type_fails_first Splunk.generateQuery no_text no_text
           {[ "fields" := VList [VStr "a"; VStr "b"; VStr "c"] ]}
           [near_condition] number_then_KeyError
           [VStr "a"] [VStr "A"] (VStr "b") (VInt 7) [VStr "c"]);
    try reflexivity.
  repeat constructor.
Defined.

Lemma generate_appends_table_clause_witness :
  SplunkBackend.generate Splunk.generateQuery no_text no_text
    (mkRule fields_a_b [equals "a" 1; equals "b" 2] fan_out)
  = Ok (Some "a=1 | table A,B1,B2").
Proof.
  apply (generate_appends_table_clause Splunk.generateQuery no_text no_text
           fields_a_b (equals "a" 1) [equals "b" 2] fan_out
           [VStr "a"; VStr "b"] [VStr "A"; VList [VStr "B1"; VStr "B2"]]
           None (Some "a=1") None);
    try reflexivity.
  - repeat constructor.
  - discriminate.
Defined.

Lemma empty_fan_out_leaves_bare_clause_witness :
  SplunkBackend.generate Splunk.generateQuery no_text no_text
    (mkRule fields_a_b [equals "a" 1] fans_out_to_nothing)
  = Ok (Some "a=1 | table ").
Proof.
  apply (empty_fan_out_leaves_bare_clause Splunk.generateQuery no_text no_text
           fields_a_b (equals "a" 1) [] fans_out_to_nothing
           [VStr "a"; VStr "b"] None (Some "a=1") None);
    try reflexivity.
  - discriminate.
  - repeat constructor.
Defined.

Lemma generate_without_conditions_witness :
  SplunkBackend.generate Splunk.generateQuery no_text no_text
    (mkRule {[ "fields" := VList [] ]} [] fan_out)
  = Ok None.
Proof.
  apply (generate_without_conditions Splunk.generateQuery no_text no_text
           {[ "fields" := VList [] ]} fan_out).
  right. reflexivity.
Defined.

Lemma fields_not_iterable_witness :
  ∃ msg,
    iterate VNone = Raise (TypeError msg)
    ∧ SplunkBackend.generate Splunk.generateQuery no_text no_text
        (mkRule {[ "fields" := VNone ]} [equals "a" 1] fan_out)
      = Raise (TypeError msg).
Proof.
  apply (fields_not_iterable Splunk.generateQuery no_text no_text
           {[ "fields" := VNone ]} [equals "a" 1] fan_out VNone);
    [reflexivity | exact I].
Defined.

Lemma query_exception_propagates_witness :
  SplunkBackend.generate Splunk.generateQuery no_text no_text
    (mkRule ∅ [near_condition; equals "b" 2] fan_out)
  = Raise (NotImplementedError
             "The 'near' aggregation operator is not yet implemented for this backend").
Proof.
  apply (query_exception_propagates Splunk.generateQuery no_text no_text
           ∅ near_condition [equals "b" 2] fan_out (Some VNone) None);
    reflexivity.
Defined.

(** ** The dashboard document of [SplunkXMLBackend] *)

Lemma escape_markup_app (s1 s2 : string) :
  escape_markup (s1 +:+ s2) = escape_markup s1 +:+ escape_markup s2.
Proof.
  induction s1 as [|c s1 IH]; [done |].
  rewrite append_cons. cbn [escape_markup]. by rewrite IH, append_assoc.
Qed.

Lemma escape_markup_clean_query (query : string) :
  contains "<" query = false →
  contains ">" query = false →
  escape_markup query = query.
Proof.
  induction query as [|c query IH]; [done |].
  cbn [contains escape_markup]. intros Hlt Hgt.
  apply orb_false_iff in Hlt as [Hc1 Hlt], Hgt as [Hc2 Hgt].
  apply bool_decide_eq_false in Hc1, Hc2.
  unfold entity. rewrite !decide_False by done.
  by rewrite IH.
Qed.

Section document_more.
Context {S : Type}.
Context (generateQuery : ConditionParsed → result (option string)).
Context (getRuleName : SigmaParser → S → result string * S).

Abbreviation loop :=
  (SplunkXMLBackend.generate_loop generateQuery getRuleName).
Abbreviation generate :=
  (SplunkXMLBackend.generate generateQuery getRuleName).
Abbreviation finalize := (SplunkXMLBackend.finalize (S:=S)).
Abbreviation instance_of := (@SplunkXMLBackend.mkInstance S).

Implicit Types (self : SplunkXMLBackend.instance S).

(** One round of the loop, by the outcome of the query rendering and of
    the rule name. *)
Lemma loop_panel sigmaparser parsed conditions query name names self :
  generateQuery parsed = Ok (Some query) →
  getRuleName sigmaparser (SplunkXMLBackend.mixin self) = (Ok name, names) →
  loop sigmaparser (parsed :: conditions) self
  = loop sigmaparser conditions
      (instance_of (SplunkXMLBackend.queries self +:+ panel name query)
                   names).
Proof.
  intros Hquery Hname. cbn [SplunkXMLBackend.generate_loop].
  unfold mbind, SplunkXMLBackend.method_bind, SplunkXMLBackend.call.
  rewrite Hquery.
  unfold SplunkXMLBackend.queries_add, SplunkXMLBackend.call_getRuleName.
  cbn [SplunkXMLBackend.queries SplunkXMLBackend.mixin].
  rewrite Hname. cbn [SplunkXMLBackend.queries SplunkXMLBackend.mixin].
  rewrite replace_both. unfold panel. by rewrite !append_assoc.
Qed.

Lemma loop_no_query sigmaparser parsed conditions self :
  generateQuery parsed = Ok None →
  loop sigmaparser (parsed :: conditions) self
  = loop sigmaparser conditions self.
Proof.
  intros Hquery. cbn [SplunkXMLBackend.generate_loop].
  unfold mbind, SplunkXMLBackend.method_bind, SplunkXMLBackend.call.
  by rewrite Hquery.
Qed.

Lemma loop_query_raises sigmaparser parsed conditions e self :
  generateQuery parsed = Raise e →
  loop sigmaparser (parsed :: conditions) self = (Raise e, self).
Proof.
  intros Hquery. cbn [SplunkXMLBackend.generate_loop].
  unfold mbind, SplunkXMLBackend.method_bind, SplunkXMLBackend.call.
  by rewrite Hquery.
Qed.

Lemma loop_name_raises sigmaparser parsed conditions query e names self :
  generateQuery parsed = Ok (Some query) →
  getRuleName sigmaparser (SplunkXMLBackend.mixin self) = (Raise e, names) →
  loop sigmaparser (parsed :: conditions) self
  = (Raise e,
     instance_of (SplunkXMLBackend.queries self
                  +:+ SplunkXMLBackend.panel_pre) names).
Proof.
  intros Hquery Hname. cbn [SplunkXMLBackend.generate_loop].
  unfold mbind, SplunkXMLBackend.method_bind, SplunkXMLBackend.call.
  rewrite Hquery.
  unfold SplunkXMLBackend.queries_add, SplunkXMLBackend.call_getRuleName.
  cbn [SplunkXMLBackend.queries SplunkXMLBackend.mixin].
  by rewrite Hname.
Qed.

Lemma loop_only_grows sigmaparser conditions self :
  ∃ added,
    SplunkXMLBackend.queries (loop sigmaparser conditions self).2
    = SplunkXMLBackend.queries self +:+ added.
Proof.
  revert self. induction conditions as [|parsed conditions IH]; intros self.
  { exists "". cbn. by rewrite append_nil_r. }
  destruct (generateQuery parsed) as [[query|]|e] eqn:Hquery.
  - destruct (getRuleName sigmaparser (SplunkXMLBackend.mixin self))
      as [[name|e] names] eqn:Hname.
    + rewrite (loop_panel _ _ _ query name names) by done.
      destruct (IH (instance_of
                      (SplunkXMLBackend.queries self +:+ panel name query)
                      names)) as [added ->].
      exists (panel name query +:+ added).
      cbn [SplunkXMLBackend.queries]. by rewrite append_assoc.
    + rewrite (loop_name_raises _ _ _ query e names) by done.
      by exists SplunkXMLBackend.panel_pre.
  - rewrite loop_no_query by done. apply IH.
  - rewrite (loop_query_raises _ _ _ e) by done.
    exists "". cbn. by rewrite append_nil_r.
Qed.

(** X17: whatever a call of [generate] does, and also when it raises,
    the document it leaves begins with the document it found: nothing
    accumulated is taken back or rewritten. *)
Theorem document_only_grows sigmaparser self :
  ∃ added,
    SplunkXMLBackend.queries (generate sigmaparser self).2
    = SplunkXMLBackend.queries self +:+ added.
Proof. apply loop_only_grows. Qed.

(** X18: a rule all of whose conditions have no query text leaves the
    instance as it is: no panel, and no rule name is asked for. *)
Theorem no_query_no_panel sigmaparser self :
  Forall (λ parsed, generateQuery parsed = Ok None) (condparsed sigmaparser) →
  generate sigmaparser self = (Ok (), self).
Proof.
  unfold SplunkXMLBackend.generate.
  induction 1 as [|parsed conditions Hquery _ IH]; [done |].
  by rewrite loop_no_query.
Qed.

(** X19: every top-level condition of a rule gets a panel of its own, in
    the order of the conditions, each under the name that a fresh call
    of [getRuleName] gives. *)
Theorem each_condition_gets_a_panel
        sigmaparser parsed1 parsed2 q1 q2 name1 name2 names1 names2 self :
  condparsed sigmaparser = [parsed1; parsed2] →
  generateQuery parsed1 = Ok (Some q1) →
  generateQuery parsed2 = Ok (Some q2) →
  getRuleName sigmaparser (SplunkXMLBackend.mixin self) = (Ok name1, names1) →
  getRuleName sigmaparser names1 = (Ok name2, names2) →
  generate sigmaparser self
  = (Ok (),
     instance_of (SplunkXMLBackend.queries self +:+ panel name1 q1
                  +:+ panel name2 q2) names2).
Proof.
  intros Hcond Hq1 Hq2 Hn1 Hn2. unfold SplunkXMLBackend.generate.
  rewrite Hcond.
  rewrite (loop_panel _ _ _ q1 name1 names1) by done.
  rewrite (loop_panel _ _ _ q2 name2 names2) by done.
  cbn. by rewrite append_assoc.
Qed.

(** X20: when the query of a later condition cannot be rendered, the
    exception leaves [generate] with the panels of the earlier conditions
    of the same rule already in the document. *)
Theorem query_failure_keeps_earlier_panels
        sigmaparser parsed1 parsed2 rest q1 name1 names1 e self :
  condparsed sigmaparser = parsed1 :: parsed2 :: rest →
  generateQuery parsed1 = Ok (Some q1) →
  getRuleName sigmaparser (SplunkXMLBackend.mixin self) = (Ok name1, names1) →
  generateQuery parsed2 = Raise e →
  generate sigmaparser self
  = (Raise e,
     instance_of (SplunkXMLBackend.queries self +:+ panel name1 q1) names1).
Proof.
  intros Hcond Hq1 Hn1 Hq2. unfold SplunkXMLBackend.generate.
  rewrite Hcond.
  rewrite (loop_panel _ _ _ q1 name1 names1) by done.
  by rewrite (loop_query_raises _ _ _ e).
Qed.

(** X21: the opening of a panel is appended before the rule name is
    asked for, so an exception of [getRuleName] leaves the document with
    an opened panel that nothing closes. *)
Theorem name_failure_leaves_open_panel
        sigmaparser parsed rest query e names self :
  condparsed sigmaparser = parsed :: rest →
  generateQuery parsed = Ok (Some query) →
  getRuleName sigmaparser (SplunkXMLBackend.mixin self) = (Raise e, names) →
  generate sigmaparser self
  = (Raise e,
     instance_of (SplunkXMLBackend.queries self
                  +:+ SplunkXMLBackend.panel_pre) names).
Proof.
  intros Hcond Hquery Hname. unfold SplunkXMLBackend.generate.
  rewrite Hcond. by apply (loop_name_raises _ _ _ query).
Qed.

(** X22: [finalize] keeps no mark of having run: a second call appends
    the suffix a second time and returns the document with both. *)
Theorem finalize_twice_doubles_suffix self :
  (finalize;; finalize) self
  = (Ok (SplunkXMLBackend.queries self +:+ SplunkXMLBackend.dash_suf
         +:+ SplunkXMLBackend.dash_suf),
     instance_of (SplunkXMLBackend.queries self +:+ SplunkXMLBackend.dash_suf
                  +:+ SplunkXMLBackend.dash_suf)
                 (SplunkXMLBackend.mixin self)).
Proof.
  unfold mbind, SplunkXMLBackend.method_bind.
  rewrite !finalize_appends_suffix.
  cbn [SplunkXMLBackend.queries SplunkXMLBackend.mixin].
  by rewrite append_assoc.
Qed.

(** X23: a rule generated after [finalize] is still accepted, and its
    panel lands behind the suffix. *)
Theorem panel_after_finalize sigmaparser parsed query name names self :
  condparsed sigmaparser = [parsed] →
  generateQuery parsed = Ok (Some query) →
  getRuleName sigmaparser (SplunkXMLBackend.mixin self) = (Ok name, names) →
  (finalize;; generate sigmaparser) self
  = (Ok (),
     instance_of (SplunkXMLBackend.queries self +:+ SplunkXMLBackend.dash_suf
                  +:+ panel name query) names).
Proof.
  intros Hcond Hquery Hname.
  unfold mbind, SplunkXMLBackend.method_bind.
  rewrite finalize_appends_suffix.
  rewrite (generate_appends_panel generateQuery getRuleName sigmaparser
             parsed query name names) by done.
  cbn [SplunkXMLBackend.queries]. by rewrite append_assoc.
Qed.

(** X24: a query without [<] and [>] is put into its panel unchanged:
    no other character, [&] and the double quote included, is replaced. *)
Theorem clean_query_verbatim sigmaparser parsed query name names self :
  condparsed sigmaparser = [parsed] →
  generateQuery parsed = Ok (Some query) →
  getRuleName sigmaparser (SplunkXMLBackend.mixin self) = (Ok name, names) →
  contains "<" query = false →
  contains ">" query = false →
  generate sigmaparser self
  = (Ok (),
     instance_of (SplunkXMLBackend.queries self
                  +:+ SplunkXMLBackend.panel_pre +:+ name
                  +:+ SplunkXMLBackend.panel_inf +:+ query
                  +:+ SplunkXMLBackend.panel_suf) names).
Proof.
  intros Hcond Hquery Hname Hlt Hgt.
  rewrite (generate_appends_panel generateQuery getRuleName sigmaparser
             parsed query name names) by done.
  unfold panel. by rewrite escape_markup_clean_query.
Qed.

(** X25: since [&] is left alone, the document does not tell a [<] of
    the query from the entity written out in the query: two rules whose
    queries differ only in this give the same document. *)
Theorem entity_collides_with_angle
        rule1 rule2 parsed1 parsed2 pre post name names self :
  condparsed rule1 = [parsed1] →
  condparsed rule2 = [parsed2] →
  generateQuery parsed1 = Ok (Some (pre +:+ "<" +:+ post)) →
  generateQuery parsed2 = Ok (Some (pre +:+ "&lt;" +:+ post)) →
  getRuleName rule1 (SplunkXMLBackend.mixin self) = (Ok name, names) →
  getRuleName rule2 (SplunkXMLBackend.mixin self) = (Ok name, names) →
  generate rule1 self = generate rule2 self.
Proof.
  intros Hc1 Hc2 Hq1 Hq2 Hn1 Hn2.
  rewrite (generate_appends_panel generateQuery getRuleName rule1
             parsed1 (pre +:+ "<" +:+ post) name names) by done.
  rewrite (generate_appends_panel generateQuery getRuleName rule2
             parsed2 (pre +:+ "&lt;" +:+ post) name names) by done.
  unfold panel. by rewrite !escape_markup_app.
Qed.

End document_more.

Lemma no_query_no_panel_witness :
  SplunkXMLBackend.generate no_text SplunkXML.getRuleName rule_R4
    (SplunkXMLBackend.new ())
  = (Ok (), SplunkXMLBackend.new ()).
Proof.
  apply (no_query_no_panel no_text SplunkXML.getRuleName rule_R4
           (SplunkXMLBackend.new ())).
  repeat constructor.
Defined.

Lemma each_condition_gets_a_panel_witness :
  SplunkXML.generate rule_R4 (SplunkXMLBackend.new ())
  = (Ok (),
     SplunkXMLBackend.mkInstance
       (SplunkXMLBackend.dash_pre +:+ panel "R4" "a=1"
        +:+ panel "R4" "b=2") ()).
Proof.
  apply (each_condition_gets_a_panel
           SplunkXML.generateQuery SplunkXML.getRuleName rule_R4
           (equals "a" 1) (equals "b" 2)
           "a=1" "b=2" "R4" "R4" () ()
           (SplunkXMLBackend.new ())); reflexivity.
Defined.

Lemma query_failure_keeps_earlier_panels_witness :
  SplunkXMLBackend.generate strict_query SplunkXML.getRuleName rule_R5
    (SplunkXMLBackend.new ())
  = (Raise (NotImplementedError
              "The 'near' aggregation operator is not yet implemented for this backend"),
     SplunkXMLBackend.mkInstance
       (SplunkXMLBackend.dash_pre +:+ panel "R5" "a=1") ()).
Proof.
  apply (query_failure_keeps_earlier_panels
           strict_query SplunkXML.getRuleName rule_R5
           (equals "a" 1) near_condition [] "a=1" "R5" ()
           (NotImplementedError
              "The 'near' aggregation operator is not yet implemented for this backend")
           (SplunkXMLBackend.new ())); reflexivity.
Defined.

Lemma name_failure_leaves_open_panel_witness :
  SplunkXML.generate untitled (SplunkXMLBackend.new ())
  = (Raise (KeyError "title"),
     SplunkXMLBackend.mkInstance
       (SplunkXMLBackend.dash_pre +:+ SplunkXMLBackend.panel_pre) ()).
Proof.
  apply (name_failure_leaves_open_panel
           SplunkXML.generateQuery SplunkXML.getRuleName untitled
           (equals "a" 1) [] "a=1" (KeyError "title") ()
           (SplunkXMLBackend.new ())); reflexivity.
Defined.

Lemma panel_after_finalize_witness :
  (SplunkXMLBackend.finalize;; SplunkXML.generate rule_R2)
    (SplunkXMLBackend.new ())
  = (Ok (),
     SplunkXMLBackend.mkInstance
       (SplunkXMLBackend.dash_pre +:+ SplunkXMLBackend.dash_suf
        +:+ panel "R2" "b=2") ()).
Proof.
  apply (panel_after_finalize
           SplunkXML.generateQuery SplunkXML.getRuleName rule_R2
           (equals "b" 2) "b=2" "R2" ()
           (SplunkXMLBackend.new ())); reflexivity.
Defined.

Lemma clean_query_verbatim_witness :
  SplunkXML.generate rule_R2 (SplunkXMLBackend.new ())
  = (Ok (),
     SplunkXMLBackend.mkInstance
       (SplunkXMLBackend.dash_pre +:+ SplunkXMLBackend.panel_pre +:+ "R2"
        +:+ SplunkXMLBackend.panel_inf +:+ "b=2"
        +:+ SplunkXMLBackend.panel_suf) ()).
Proof.
  apply (clean_query_verbatim
           SplunkXML.generateQuery SplunkXML.getRuleName rule_R2
           (equals "b" 2) "b=2" "R2" ()
           (SplunkXMLBackend.new ())); reflexivity.
Defined.

Lemma entity_collides_with_angle_witness :
  SplunkXML.generate rule_angle (SplunkXMLBackend.new ())
  = SplunkXML.generate rule_entity (SplunkXMLBackend.new ()).
Proof.
  apply (entity_collides_with_angle
           SplunkXML.generateQuery SplunkXML.getRuleName
           rule_angle rule_entity
           (mkParsed (Comparison "a" (Scalar (VStr "1<2"))) None)
           (mkParsed (Comparison "a" (Scalar (VStr "1&lt;2"))) None)
           ("a=" +:+ DQ +:+ "1") ("2" +:+ DQ) "R6" ()
           (SplunkXMLBackend.new ())); reflexivity.
Defined.

(** ** The pattern [reEscape] and the escaping of values *)

Section escaping_more.
Implicit Types (s before pre post : list ascii) (c : ascii).

Lemma matches_reEscape_end before :
  Re.matches SplunkBackend.reEscape_pattern before [] = [].
Proof.
  unfold SplunkBackend.reEscape_pattern. cbn [Re.matches].
  destruct before as [|p before]; [done |].
  by destruct (decide (p = backslash)).
Qed.

(** X26: the pattern [reEscape] of both classes matches one character at
    a time and never the empty text: at a position it matches exactly
    when the character there is a double quote, or a backslash that no
    backslash precedes and that none of [*], [?] and backslash follows. *)
Theorem pattern_match_characterised before s m rest :
  SplunkXMLBackend.reEscape_pattern = SplunkBackend.reEscape_pattern
  ∧ ((m, rest) ∈ Re.matches SplunkBackend.reEscape_pattern before s
     ↔ ∃ c, s = c :: rest ∧ m = [c]
            ∧ must_escape (head before) c (head rest) = true).
Proof.
  split; [reflexivity |].
  destruct s as [|c s].
  - rewrite matches_reEscape_end. split.
    + by intros ?%elem_of_nil.
    + by intros (c & ? & _).
  - rewrite matches_reEscape. split.
    + destruct (must_escape (head before) c (head s)) eqn:Hesc.
      * intros Hin%list_elem_of_singleton. simplify_eq. by exists c.
      * by intros ?%elem_of_nil.
    + intros (c' & Hs & -> & Hesc). simplify_eq. rewrite Hesc.
      by apply list_elem_of_singleton.
Qed.


Lemma escape_from_clean (v : string) (prev : option ascii) :
  contains dquote v = false →
  contains backslash v = false →
  escape_from prev (list_ascii_of_string v) = list_ascii_of_string v.
Proof.
  revert prev. induction v as [|c v IH]; intros prev; [done |].
  cbn [contains list_ascii_of_string escape_from]. intros Hq Hb.
  apply orb_false_iff in Hq as [Hcq Hq], Hb as [Hcb Hb].
  apply bool_decide_eq_false in Hcq, Hcb.
  unfold must_escape. rewrite !bool_decide_eq_false_2 by done.
  cbn [orb andb app]. by rewrite IH.
Qed.

(** X27: a value without a double quote and without a backslash passes
    the escaping of both classes unchanged. *)
Theorem clean_value_unchanged (v : string) :
  contains dquote v = false →
  contains backslash v = false →
  SingleTextQueryBackend.cleanValue SplunkBackend.attributes v = v
  ∧ SingleTextQueryBackend.cleanValue SplunkXMLBackend.attributes v = v.
Proof.
  intros Hq Hb.
  assert (SingleTextQueryBackend.cleanValue SplunkBackend.attributes v = v)
    as Hclean.
  { rewrite cleanValue_escape_from, escape_from_clean by done.
    apply string_of_list_ascii_of_string. }
  split; [exact Hclean |].
  change (SingleTextQueryBackend.cleanValue SplunkXMLBackend.attributes v)
    with (SingleTextQueryBackend.cleanValue SplunkBackend.attributes v).
  exact Hclean.
Qed.



End escaping_more.

Lemma clean_value_unchanged_witness :
  SingleTextQueryBackend.cleanValue SplunkBackend.attributes "C:*.exe?" = "C:*.exe?"
  ∧ SingleTextQueryBackend.cleanValue SplunkXMLBackend.attributes "C:*.exe?"
    = "C:*.exe?".
Proof. apply (clean_value_unchanged "C:*.exe?"); reflexivity. Defined.

